(** * Admin API management client: a shallow embedding of
      [admin-api-examples.py] and the properties of its dispatcher.

    The Python module wraps five remote administrative HTTP endpoints
    behind [PlatformAdminManager], repeats two of them over a list of
    instances and offers a command-line entry point [main].

    Effects are made explicit.  A computation runs from the trace of the
    observable events that happened so far (requests handed to the HTTP
    library, lines printed) and yields either a raised exception or a value,
    together with the extended trace.  The collaborators outside the module
    -- the network reached through [requests], the JSON codec, the file
    system -- are the fields of the class [Env]. *)

From Corelib Require Import SpecFloat.
From Stdlib Require Import String Ascii List ZArith Lia Bool DecimalString.
Import ListNotations.
Local Open Scope string_scope.
Local Open Scope list_scope.

(** String concatenation, as in an f-string; [++] stays with lists. *)
Infix "^" := String.append (at level 30, right associativity) : string_scope.

(** ** Python values *)

#[local] Set Warnings "-register-all".

(** The values [json.load] and [Response.json] produce and [json.dumps]
    accepts.  A number is an [int], of any size, or a [float]: a zero, an
    infinity, [nan], or a sign, a mantissa and a binary exponent; the
    decoder accepts [NaN] and [Infinity] too. *)
Inductive JSON : Type :=
| JNull
| JBool (b : bool)
| JNum (n : Z)
| JFloat (x : spec_float)
| JStr (s : string)
| JArr (items : list JSON)
| JObj (members : list (string * JSON)).

(** A [dict] with string keys: keys are unique and iteration follows the
    order of first insertion.  Assigning to a key that is present replaces
    its value where it stands. *)
Module PyDict.

Definition t (V : Type) : Type := list (string * V).

Definition empty {V : Type} : t V := [].

Fixpoint get {V : Type} (k : string) (d : t V) : option V :=
  match d with
  | [] => None
  | (k', v) :: rest => if String.eqb k k' then Some v else get k rest
  end.

(** [d[k] = v] *)
Fixpoint set {V : Type} (k : string) (v : V) (d : t V) : t V :=
  match d with
  | [] => [(k, v)]
  | (k', v') :: rest =>
      if String.eqb k k' then (k', v) :: rest else (k', v') :: set k v rest
  end.

Definition keys {V : Type} (d : t V) : list string := map fst d.

Definition values {V : Type} (d : t V) : list V := map snd d.

End PyDict.

(** An exception object: its class and what [str(e)] returns.  Only
    subclasses of [Exception] occur: the errors of [requests], of the JSON
    decoder and of [open]. *)
Record Exn : Type := mkExn { exn_class : string; exn_str : string }.

(** ** Observable events *)

Inductive Method : Type := GET | POST.

(** The arguments of one call of [requests.get] or [requests.post].
    [req_json] is the [json=] keyword; [JNull] is Python's [None], its
    default, which sends no body. *)
Record Request : Type := mkRequest {
  req_method : Method;
  req_url : string;
  req_headers : PyDict.t string;
  req_json : JSON;
  req_timeout : Z
}.

(** What the module reads of a [requests.Response]. *)
Record Response : Type := mkResponse {
  status_code : Z;
  reason : string;
  url : string;
  text : string
}.

(** One call of the HTTP library, or one call of [print] with the text it
    was given, which may run over several lines. *)
Inductive Event : Type :=
| EvRequest (r : Request)
| EvPrint (line : string).

Definition Trace : Type := list Event.

Definition is_request (e : Event) : bool :=
  match e with EvRequest _ => true | EvPrint _ => false end.

(** The requests of a trace, in the order they were issued. *)
Definition http_calls (t : Trace) : list Event := filter is_request t.

(** ** Computations: trace passing with exceptions *)

Definition M (A : Type) : Type := Trace -> (Exn + A) * Trace.

Definition ret {A : Type} (a : A) : M A := fun t => (inr a, t).

Definition raise {A : Type} (e : Exn) : M A := fun t => (inl e, t).

Definition bind {A B : Type} (m : M A) (k : A -> M B) : M B :=
  fun t =>
    match m t with
    | (inr a, t') => k a t'
    | (inl e, t') => (inl e, t')
    end.

(** [try: body / except Exception as e: handler e].  What the body did
    before it raised stays in the trace. *)
Definition try_except {A : Type} (body : M A) (handler : Exn -> M A) : M A :=
  fun t =>
    match body t with
    | (inr a, t') => (inr a, t')
    | (inl e, t') => handler e t'
    end.

Definition print (line : string) : M unit := fun t => (inr tt, t ++ [EvPrint line]).

Declare Scope py_scope.
Delimit Scope py_scope with py.
Notation "x <- m ;; k" := (bind m (fun x => k))
  (at level 100, m at next level, right associativity) : py_scope.
Notation "m ;;; k" := (bind m (fun _ => k))
  (at level 100, right associativity) : py_scope.
Local Open Scope py_scope.

(** [for x in xs: body], the loop threading the variables it assigns. *)
Fixpoint for_each {A S : Type} (xs : list A) (body : A -> S -> M S) (s : S) : M S :=
  match xs with
  | [] => ret s
  | x :: rest => s' <- body x s ;; for_each rest body s'
  end.

(** The result dictionaries of the operations. *)
Definition Result : Type := PyDict.t JSON.

(** Decimal rendering of an integer, as an f-string does. *)
Definition str_of_int (z : Z) : string := NilZero.string_of_int (Z.to_int z).

(** ** [requests.Response.raise_for_status]

    The library builds a message for the 4xx and the 5xx classes and raises
    [HTTPError] when that message is not empty. *)
Definition http_error_msg (r : Response) : string :=
  if ((400 <=? status_code r) && (status_code r <? 500))%Z then
    str_of_int (status_code r) ^ " Client Error: " ^ reason r
      ^ " for url: " ^ url r
  else if ((500 <=? status_code r) && (status_code r <? 600))%Z then
    str_of_int (status_code r) ^ " Server Error: " ^ reason r
      ^ " for url: " ^ url r
  else "".

Definition raise_for_status (r : Response) : M unit :=
  if String.eqb (http_error_msg r) "" then ret tt
  else raise (mkExn "HTTPError" (http_error_msg r)).

(** ** [requests.models.PreparedRequest.prepare_body]

    What becomes the body of a request made without [data=]: nothing when
    [json=] is [None]; otherwise the serialisation of the value given as
    [json=], and an [InvalidJSONError] when the serialiser refuses it (a
    [nan], an infinity).  [encode] is that serialiser, [json.dumps (_,
    allow_nan=False)] followed by the UTF-8 encoding. *)
Definition prepare_body (encode : JSON -> Exn + string) (r : Request)
  : Exn + option string :=
  match req_json r with
  | JNull => inr None
  | value =>
      match encode value with
      | inl e => inl e
      | inr body => inr (Some body)
      end
  end.

(** ** The collaborators outside the module *)

Class Env : Type := {
  (** What the network does with a request, given everything that happened
      before it: the transport raises, or a response comes back. *)
  network : Trace -> Request -> Exn + Response;
  (** [json.loads]: the decoded value, or the decoder's error. *)
  json_loads : string -> Exn + JSON;
  (** [json.dumps (_, indent=2)] *)
  json_dumps : JSON -> string;
  (** [open (path, 'r')] followed by reading the file. *)
  read_file : string -> Exn + string
}.

Definition requests_request {env : Env} (r : Request) : M Response :=
  fun t => (network t r, t ++ [EvRequest r]).

Definition requests_get {env : Env} (u : string) (headers : PyDict.t string)
    (timeout : Z) : M Response :=
  requests_request (mkRequest GET u headers JNull timeout).

Definition requests_post {env : Env} (u : string) (headers : PyDict.t string)
    (json : JSON) (timeout : Z) : M Response :=
  requests_request (mkRequest POST u headers json timeout).

(** [response.json ()] *)
Definition response_json {env : Env} (r : Response) : M JSON :=
  fun t => (json_loads (text r), t).

(** [json.load (f)] under [with open (path, 'r') as f] *)
Definition json_load_file {env : Env} (path : string) : M JSON :=
  fun t =>
    match read_file path with
    | inl e => (inl e, t)
    | inr contents => (json_loads contents, t)
    end.

(** ** class PlatformAdminManager *)

Record PlatformAdminManager : Type := mkManager {
  admin_key : string;
  headers : PyDict.t string
}.

Definition __init__ (admin_key : string) : PlatformAdminManager :=
  mkManager admin_key
    [("Authorization", "Admin " ^ admin_key);
     ("Content-Type", "application/json")].

Definition ping {env : Env} (self : PlatformAdminManager) (instance_url : string)
  : M Result :=
  try_except
    (response <- requests_get (instance_url ^ "/api/admin/ping")
                   (headers self) 10 ;;
     raise_for_status response ;;;
     data <- response_json response ;;
     ret [("status", JStr "success"); ("data", data)])
    (fun e => ret [("status", JStr "error"); ("error", JStr (exn_str e))]).

Definition health_check {env : Env} (self : PlatformAdminManager)
    (instance_url : string) : M Result :=
  try_except
    (response <- requests_get (instance_url ^ "/api/admin/health")
                   (headers self) 30 ;;
     raise_for_status response ;;;
     data <- response_json response ;;
     ret [("status", JStr "success"); ("data", data)])
    (fun e => ret [("status", JStr "error"); ("error", JStr (exn_str e))]).

Definition system_info {env : Env} (self : PlatformAdminManager)
    (instance_url : string) : M Result :=
  try_except
    (response <- requests_get (instance_url ^ "/api/admin/info")
                   (headers self) 15 ;;
     raise_for_status response ;;;
     data <- response_json response ;;
     ret [("status", JStr "success"); ("data", data)])
    (fun e => ret [("status", JStr "error"); ("error", JStr (exn_str e))]).

Definition deploy_integration {env : Env} (self : PlatformAdminManager)
    (instance_url : string) (integration_config : JSON) : M Result :=
  try_except
    (response <- requests_post (instance_url ^ "/api/admin/integrations/deploy")
                   (headers self) integration_config 60 ;;
     raise_for_status response ;;;
     data <- response_json response ;;
     ret [("status", JStr "success"); ("data", data)])
    (fun e => ret [("status", JStr "error"); ("error", JStr (exn_str e))]).

Definition execute_migration {env : Env} (self : PlatformAdminManager)
    (instance_url : string) (migration_config : JSON) : M Result :=
  try_except
    (response <- requests_post (instance_url ^ "/api/admin/migrations/execute")
                   (headers self) migration_config 120 ;;
     raise_for_status response ;;;
     data <- response_json response ;;
     ret [("status", JStr "success"); ("data", data)])
    (fun e => ret [("status", JStr "error"); ("error", JStr (exn_str e))]).

Definition bulk_health_check {env : Env} (self : PlatformAdminManager)
    (instance_urls : list string) : M (PyDict.t Result) :=
  for_each instance_urls
    (fun url results =>
       print ("Checking health for " ^ url ^ "...") ;;;
       r <- health_check self url ;;
       ret (PyDict.set url r results))
    PyDict.empty.

Definition bulk_deploy_integration {env : Env} (self : PlatformAdminManager)
    (instance_urls : list string) (integration_config : JSON)
  : M (PyDict.t Result) :=
  for_each instance_urls
    (fun url results =>
       print ("Deploying integration to " ^ url ^ "...") ;;;
       r <- deploy_integration self url integration_config ;;
       ret (PyDict.set url r results))
    PyDict.empty.

(** ** The command line *)

(** The [choices] of [--action]; [argparse] rejects anything else. *)
Inductive Action : Type := ActPing | ActHealth | ActInfo | ActDeploy | ActMigrate.

(** The namespace [parse_args] returns; [--config-file] is optional and
    [None] when it is not given. *)
Record Args : Type := mkArgs {
  arg_admin_key : string;
  arg_instance : string;
  arg_action : Action;
  arg_config_file : option string
}.

(** [main], after [parse_args].  [not args.config_file] holds of [None] and
    of the empty string; an early [return] ends the computation. *)
Definition main {env : Env} (args : Args) : M unit :=
  let manager := __init__ (arg_admin_key args) in
  match arg_action args with
  | ActPing =>
      result <- ping manager (arg_instance args) ;;
      print (json_dumps (JObj result))
  | ActHealth =>
      result <- health_check manager (arg_instance args) ;;
      print (json_dumps (JObj result))
  | ActInfo =>
      result <- system_info manager (arg_instance args) ;;
      print (json_dumps (JObj result))
  | ActDeploy =>
      match arg_config_file args with
      | None | Some EmptyString =>
          print "--config-file required for deploy action"
      | Some path =>
          config <- json_load_file path ;;
          result <- deploy_integration manager (arg_instance args) config ;;
          print (json_dumps (JObj result))
      end
  | ActMigrate =>
      match arg_config_file args with
      | None | Some EmptyString =>
          print "--config-file required for migrate action"
      | Some path =>
          config <- json_load_file path ;;
          result <- execute_migration manager (arg_instance args) config ;;
          print (json_dumps (JObj result))
      end
  end.

(** ** The vocabulary of the specification *)

(** The two outcomes of an operation, [Success {body}] and
    [Failure {message}], as the result dictionaries encode them. *)
Definition Success (body : JSON) : Result :=
  [("status", JStr "success"); ("data", body)].

Definition Failure (message : string) : Result :=
  [("status", JStr "error"); ("error", JStr message)].

(** The five single-instance operations, with the configuration the last
    two carry. *)
Inductive Operation : Type :=
| Ping
| HealthCheck
| SystemInfo
| DeployIntegration (config : JSON)
| ExecuteMigration (config : JSON).

Definition run_operation {env : Env} (self : PlatformAdminManager)
    (op : Operation) (instance_url : string) : M Result :=
  match op with
  | Ping => ping self instance_url
  | HealthCheck => health_check self instance_url
  | SystemInfo => system_info self instance_url
  | DeployIntegration config => deploy_integration self instance_url config
  | ExecuteMigration config => execute_migration self instance_url config
  end.

(** The operation table of the specification, column by column. *)
Definition table_method (op : Operation) : Method :=
  match op with
  | Ping | HealthCheck | SystemInfo => GET
  | DeployIntegration _ | ExecuteMigration _ => POST
  end.

Definition table_path (op : Operation) : string :=
  match op with
  | Ping => "/api/admin/ping"
  | HealthCheck => "/api/admin/health"
  | SystemInfo => "/api/admin/info"
  | DeployIntegration _ => "/api/admin/integrations/deploy"
  | ExecuteMigration _ => "/api/admin/migrations/execute"
  end.

Definition table_timeout (op : Operation) : Z :=
  match op with
  | Ping => 10
  | HealthCheck => 30
  | SystemInfo => 15
  | DeployIntegration _ => 60
  | ExecuteMigration _ => 120
  end.

Definition table_body (op : Operation) : JSON :=
  match op with
  | Ping | HealthCheck | SystemInfo => JNull
  | DeployIntegration config | ExecuteMigration config => config
  end.

(** The request the specification prescribes for an operation on an
    instance, with the two headers built from the credential. *)
Definition table_request (credential : string) (op : Operation)
    (instance_url : string) : Request :=
  mkRequest (table_method op) (instance_url ^ table_path op)
    [("Authorization", "Admin " ^ credential);
     ("Content-Type", "application/json")]
    (table_body op) (table_timeout op).

Definition status_2xx (r : Response) : Prop := (200 <= status_code r < 300)%Z.

(** The statuses [raise_for_status] rejects. *)
Definition status_4xx_5xx (r : Response) : Prop := (400 <= status_code r < 600)%Z.

(** The outcomes of a request that make an operation fail, each with the
    message the failure carries: the transport raised (connection error,
    timeout), the status is a client or server error, or the status passed
    and the body does not decode. *)
Inductive failed_request {env : Env} (out : Exn + Response) : string -> Prop :=
| transport_failed (e : Exn) :
    out = inl e -> failed_request out (exn_str e)
| status_failed (resp : Response) :
    out = inr resp -> status_4xx_5xx resp ->
    failed_request out (http_error_msg resp)
| body_failed (resp : Response) (e : Exn) :
    out = inr resp -> ~ status_4xx_5xx resp ->
    json_loads (text resp) = inl e ->
    failed_request out (exn_str e).

(** The shape of a result dictionary: a status that is one of two words,
    [data] present exactly with the first, [error] exactly with the
    second. *)
Definition success_shape (r : Result) (body : JSON) : Prop :=
  PyDict.get "status" r = Some (JStr "success") /\
  PyDict.get "data" r = Some body /\
  PyDict.get "error" r = None.

Definition error_shape (r : Result) (message : string) : Prop :=
  PyDict.get "status" r = Some (JStr "error") /\
  PyDict.get "error" r = Some (JStr message) /\
  PyDict.get "data" r = None.

Definition result_shape (r : Result) : Prop :=
  (exists body, success_shape r body) \/ (exists message, error_shape r message).

(** The result a request's outcome leads to. *)
Definition result_of {env : Env} (out : Exn + Response) : Result :=
  match out with
  | inl e => Failure (exn_str e)
  | inr resp =>
      if String.eqb (http_error_msg resp) "" then
        match json_loads (text resp) with
        | inl e => Failure (exn_str e)
        | inr body => Success body
        end
      else Failure (http_error_msg resp)
  end.

(** The progress lines of the two bulk operations. *)
Definition health_notice (u : string) : string :=
  "Checking health for " ^ u ^ "...".

Definition deploy_notice (u : string) : string :=
  "Deploying integration to " ^ u ^ "...".

(** What a bulk operation adds to the trace: for each instance in turn, its
    progress line and then its request. *)
Definition bulk_events (notice : string -> string) (request : string -> Request)
    (urls : list string) : Trace :=
  flat_map (fun u => [EvPrint (notice u); EvRequest (request u)]) urls.

(** The keys a sequence of assignments leaves in a dictionary: a key joins
    at the end the first time it is assigned and stays where it is after. *)
Definition add_key (ks : list string) (k : string) : list string :=
  if existsb (String.eqb k) ks then ks else ks ++ [k].

Definition first_occurrences (urls : list string) : list string :=
  fold_left add_key urls [].

(** ** Sample collaborators, to run the operations on concrete inputs *)

Definition sample_loads (s : string) : Exn + JSON :=
  if String.eqb s "{}" then inr (JObj [])
  else if String.eqb s "[]" then inr (JArr [])
  else if String.eqb s "null" then inr JNull
  else inl (mkExn "JSONDecodeError" "Expecting value: line 1 column 1 (char 0)").

(** Instances told apart by their host: one refuses connections, one
    answers 404, one answers 300 with a JSON body, one answers 200 with a
    body that is not JSON; all others answer 200 with an empty object. *)
Definition sample_network (t : Trace) (r : Request) : Exn + Response :=
  if prefix "https://down.example.com" (req_url r) then
    inl (mkExn "ConnectionError" "Connection refused")
  else if prefix "https://gone.example.com" (req_url r) then
    inr (mkResponse 404 "Not Found" (req_url r) "Not Found")
  else if prefix "https://choices.example.com" (req_url r) then
    inr (mkResponse 300 "Multiple Choices" (req_url r) "[]")
  else if prefix "https://html.example.com" (req_url r) then
    inr (mkResponse 200 "OK" (req_url r) "<html></html>")
  else inr (mkResponse 200 "OK" (req_url r) "{}").

Definition sample_read_file (path : string) : Exn + string :=
  if String.eqb path "config.json" then inr "{}"
  else if String.eqb path "broken.json" then inr "{not json"
  else inl (mkExn "FileNotFoundError"
              ("[Errno 2] No such file or directory: '" ^ path ^ "'")).

(** A stand-in for the pretty-printer: it shows the status only. *)
Definition sample_dumps (j : JSON) : string :=
  match j with
  | JObj (("status", JStr s) :: _) => "{ status: " ^ s ^ " }"
  | _ => "{}"
  end.

Definition sample_env : Env :=
  {| network := sample_network;
     json_loads := sample_loads;
     json_dumps := sample_dumps;
     read_file := sample_read_file |}.

Definition sample_manager : PlatformAdminManager := __init__ "s3cret".

(** The serialiser on the three documents [sample_loads] decodes. *)
Definition sample_encode (j : JSON) : Exn + string :=
  match j with
  | JNull => inr "null"
  | JArr [] => inr "[]"
  | JObj [] => inr "{}"
  | _ => inl (mkExn "InvalidJSONError" "sample_encode knows three documents")
  end.

(** A file system whose every file holds the document [null]. *)
Definition null_file_env : Env :=
  {| network := sample_network;
     json_loads := sample_loads;
     json_dumps := sample_dumps;
     read_file := fun _ => inr "null" |}.

(** ** The demonstration *)

(** What [demo_scenarios] uses of the interpreter besides the collaborators
    of the dispatcher. *)
Class Host : Type := {
  (** [os.environ] *)
  environ : string -> option string;
  (** [repr] of a list or of a dictionary, which is what an f-string shows
      of one. *)
  repr_container : JSON -> string;
  (** [repr] of a float, the shortest decimal that reads back as it. *)
  repr_float : spec_float -> string
}.

(** [os.getenv (name, default)] *)
Definition os_getenv {host : Host} (name default : string) : string :=
  match environ name with
  | Some value => value
  | None => default
  end.

(** [str (x)], as a replacement field of an f-string applies it. *)
Definition str {host : Host} (x : JSON) : string :=
  match x with
  | JNull => "None"
  | JBool true => "True"
  | JBool false => "False"
  | JNum n => str_of_int n
  | JFloat x => repr_float x
  | JStr s => s
  | JArr _ | JObj _ => repr_container x
  end.

Definition type_name (x : JSON) : string :=
  match x with
  | JNull => "NoneType"
  | JBool _ => "bool"
  | JNum _ => "int"
  | JFloat _ => "float"
  | JStr _ => "str"
  | JArr _ => "list"
  | JObj _ => "dict"
  end.

Definition KeyError (key : string) : Exn := mkExn "KeyError" ("'" ^ key ^ "'").

Definition TypeError (message : string) : Exn := mkExn "TypeError" message.

(** [d[key]] on a dictionary: a missing key raises. *)
Definition dict_getitem (d : PyDict.t JSON) (key : string) : M JSON :=
  match PyDict.get key d with
  | Some value => ret value
  | None => raise (KeyError key)
  end.

(** [x[key]] with a string key on a decoded value: only a dictionary can
    answer. *)
Definition getitem (x : JSON) (key : string) : M JSON :=
  match x with
  | JObj members => dict_getitem members key
  | JArr _ => raise (TypeError "list indices must be integers or slices, not str")
  | JStr _ => raise (TypeError "string indices must be integers, not 'str'")
  | JNull | JBool _ | JNum _ | JFloat _ =>
      raise (TypeError ("'" ^ type_name x ^ "' object is not subscriptable"))
  end.

(** What [for r in x] goes through: the items of a list, the keys of a
    dictionary, the characters of a string. *)
Definition iter (x : JSON) : M (list JSON) :=
  match x with
  | JArr items => ret items
  | JObj members => ret (map JStr (PyDict.keys members))
  | JStr s => ret (map (fun c => JStr (String c "")) (list_ascii_of_string s))
  | JNull | JBool _ | JNum _ | JFloat _ =>
      raise (TypeError ("'" ^ type_name x ^ "' object is not iterable"))
  end.

(** [len (x)] *)
Definition len (x : JSON) : M Z :=
  match x with
  | JArr items => ret (Z.of_nat (length items))
  | JObj members => ret (Z.of_nat (length members))
  | JStr s => ret (Z.of_nat (String.length s))
  | JNull | JBool _ | JNum _ | JFloat _ =>
      raise (TypeError ("object of type '" ^ type_name x ^ "' has no len()"))
  end.

(** [x == s] for a string literal [s]. *)
Definition eq_str (x : JSON) (s : string) : bool :=
  match x with
  | JStr s' => String.eqb s' s
  | _ => false
  end.

(** The line feed of ["\n"]. *)
Definition nl : string := String "010"%char "".

(** The three local values of [demo_scenarios] that are literals. *)
Definition customer_instances : list string :=
  ["https://acme-corp.msplatform.com";
   "https://techstart-inc.msplatform.com";
   "https://globalservices.msplatform.com"].

Definition integration_config : JSON :=
  JObj
    [("integrationName", JStr "enhanced-security-monitoring");
     ("version", JStr "2.1.0");
     ("description", JStr "Enhanced security monitoring with AI threat detection");
     ("defaultConfig",
      JObj [("enabled", JBool true);
            ("aiThreatDetection", JBool true);
            ("alertThreshold", JStr "medium");
            ("reportingInterval", JStr "hourly")])].

Definition migration_config : JSON :=
  JObj
    [("migrationId", JStr "security_enhancement_v2.1.0");
     ("description", JStr "Add enhanced security tracking tables");
     ("targetDatabases", JStr "clients");
     ("sqlStatements",
      JArr
        [JStr "ALTER TABLE integrations ADD COLUMN IF NOT EXISTS security_score INTEGER DEFAULT 100";
         JStr "ALTER TABLE integrations ADD COLUMN IF NOT EXISTS last_security_scan TIMESTAMP";
         JStr "CREATE INDEX IF NOT EXISTS idx_integrations_security_score ON integrations(security_score)"]);
     ("rollbackStatements",
      JArr
        [JStr "ALTER TABLE integrations DROP COLUMN IF EXISTS security_score";
         JStr "ALTER TABLE integrations DROP COLUMN IF EXISTS last_security_scan";
         JStr "DROP INDEX IF EXISTS idx_integrations_security_score"])].

(** The body of the loop over [health_results.items ()] (lines 156 to
    161). *)
Definition report_health {host : Host} (instance : string) (result : Result)
  : M unit :=
  status <- dict_getitem result "status" ;;
  if eq_str status "success" then
    d <- dict_getitem result "data" ;;
    d <- getitem d "data" ;;
    d <- getitem d "summary" ;;
    system_status <- getitem d "systemStatus" ;;
    d <- dict_getitem result "data" ;;
    d <- getitem d "data" ;;
    d <- getitem d "summary" ;;
    client_count <- getitem d "totalClients" ;;
    print (instance ^ ": " ^ str system_status ^ " (" ^ str client_count
             ^ " clients)")
  else
    error <- dict_getitem result "error" ;;
    print (instance ^ ": ERROR - " ^ str error).

(** The body of the loop over [deploy_results.items ()] (lines 178 to
    183).  The comprehension keeps the items whose [status] is [success]. *)
Definition report_deployment {host : Host} (instance : string) (result : Result)
  : M unit :=
  status <- dict_getitem result "status" ;;
  if eq_str status "success" then
    d <- dict_getitem result "data" ;;
    d <- getitem d "data" ;;
    results <- getitem d "results" ;;
    items <- iter results ;;
    kept <- for_each items
              (fun r kept =>
                 status <- getitem r "status" ;;
                 ret (if eq_str status "success" then kept ++ [r] else kept))
              [] ;;
    let success_count := Z.of_nat (length kept) in
    d <- dict_getitem result "data" ;;
    d <- getitem d "data" ;;
    results <- getitem d "results" ;;
    total_count <- len results ;;
    print (instance ^ ": " ^ str_of_int success_count ^ "/"
             ^ str_of_int total_count ^ " clients updated")
  else
    error <- dict_getitem result "error" ;;
    print (instance ^ ": DEPLOYMENT FAILED - " ^ str error).

(** What follows [execute_migration] (lines 204 to 209). *)
Definition report_migration {host : Host} (migration_result : Result) : M unit :=
  status <- dict_getitem migration_result "status" ;;
  if eq_str status "success" then
    d <- dict_getitem migration_result "data" ;;
    d <- getitem d "data" ;;
    results <- getitem d "results" ;;
    items <- iter results ;;
    kept <- for_each items
              (fun r kept =>
                 status <- getitem r "status" ;;
                 ret (if eq_str status "success" then kept ++ [r] else kept))
              [] ;;
    let success_count := Z.of_nat (length kept) in
    d <- dict_getitem migration_result "data" ;;
    d <- getitem d "data" ;;
    results <- getitem d "results" ;;
    total_count <- len results ;;
    print ("Migration executed: " ^ str_of_int success_count ^ "/"
             ^ str_of_int total_count ^ " databases updated")
  else
    error <- dict_getitem migration_result "error" ;;
    print ("Migration failed: " ^ str error).

Definition demo_scenarios {env : Env} {host : Host} : M unit :=
  let admin_key := os_getenv "ADMIN_API_KEY" "your_admin_key_here" in
  let manager := __init__ admin_key in
  print "=== Multi-Instance Health Check ===" ;;;
  health_results <- bulk_health_check manager customer_instances ;;
  for_each health_results
    (fun item _ => report_health (fst item) (snd item)) tt ;;;
  print (nl ^ "=== Integration Deployment Example ===") ;;;
  deploy_results <-
    bulk_deploy_integration manager customer_instances integration_config ;;
  for_each deploy_results
    (fun item _ => report_deployment (fst item) (snd item)) tt ;;;
  print (nl ^ "=== Migration Example ===") ;;;
  migration_result <-
    execute_migration manager "https://acme-corp.msplatform.com"
      migration_config ;;
  report_migration migration_result.

(** ** The vocabulary of the demonstration's properties *)

(** [x[k1][k2]...], when every step finds its key. *)
Fixpoint lookup_path (path : list string) (x : JSON) : option JSON :=
  match path with
  | [] => Some x
  | key :: rest =>
      match x with
      | JObj members =>
          match PyDict.get key members with
          | Some value => lookup_path rest value
          | None => None
          end
      | _ => None
      end
  end.

(** The [status] of an entry of a [results] list, when it has one. *)
Definition status_of (r : JSON) : option JSON := lookup_path ["status"] r.

Definition has_status (r : JSON) : Prop := exists s, status_of r = Some s.

Definition succeeded (r : JSON) : bool :=
  match status_of r with
  | Some s => eq_str s "success"
  | None => false
  end.

(** A computation that only prints: no request is issued. *)
Definition prints_only {A : Type} (m : M A) : Prop :=
  forall t, exists lines, snd (m t) = t ++ map EvPrint lines.

(** The errors of a subscript that finds nothing. *)
Definition lookup_error (e : Exn) : Prop :=
  exn_class e = "KeyError" \/ exn_class e = "TypeError".

(** A computation that only adds to the trace, and whose requests are known
    in advance: [full] when it returns, one of [partial] when it raises. *)
Definition issues {A : Type} (m : M A) (partial : list (list Event))
    (full : list Event) : Prop :=
  forall t,
  exists added,
    snd (m t) = t ++ added /\
    match fst (m t) with
    | inr _ => http_calls added = full
    | inl _ => In (http_calls added) partial
    end.

(** The requests the demonstration issues, phase by phase, with the
    credential it uses. *)
Definition demo_key {host : Host} : string :=
  os_getenv "ADMIN_API_KEY" "your_admin_key_here".

Definition demo_health_calls {host : Host} : list Event :=
  map (fun u => EvRequest (table_request demo_key HealthCheck u))
    customer_instances.

Definition demo_deploy_calls {host : Host} : list Event :=
  map (fun u => EvRequest
                  (table_request demo_key (DeployIntegration integration_config) u))
    customer_instances.

Definition demo_migrate_calls {host : Host} : list Event :=
  [EvRequest (table_request demo_key (ExecuteMigration migration_config)
                "https://acme-corp.msplatform.com")].

(** A host for the examples: no [ADMIN_API_KEY] in the environment, and
    stand-ins for the two [repr], the one of floats knowing 100.0 (25 times
    2 to the power 2), zero and [nan]. *)
Definition sample_host : Host :=
  {| environ := fun _ => None;
     repr_container := fun _ => "[...]";
     repr_float := fun x =>
       match x with
       | S754_finite false 25 2 => "100.0"
       | S754_zero false => "0.0"
       | S754_nan => "nan"
       | _ => "<float>"
       end |}.

(** A network on which every connection is refused. *)
Definition offline_env : Env :=
  {| network := fun _ _ => inl (mkExn "ConnectionError" "Connection refused");
     json_loads := sample_loads;
     json_dumps := sample_dumps;
     read_file := sample_read_file |}.

(** * Properties *)

(** ** Strings and the dictionary *)

Lemma append_nonempty_r (a b : string) : b <> "" -> a ^ b <> "".
Proof.
  intros Hb. destruct a as [|c a]; simpl; [exact Hb | discriminate].
Qed.

Lemma http_error_msg_rejected (r : Response) :
  status_4xx_5xx r -> http_error_msg r <> "".
Proof.
  unfold status_4xx_5xx, http_error_msg. intros Hs.
  destruct ((400 <=? status_code r) && (status_code r <? 500))%Z eqn:Hc.
  - apply append_nonempty_r. discriminate.
  - destruct ((500 <=? status_code r) && (status_code r <? 600))%Z eqn:Hd.
    + apply append_nonempty_r. discriminate.
    + apply andb_false_iff in Hc, Hd. lia.
Qed.

Lemma http_error_msg_passed (r : Response) :
  ~ status_4xx_5xx r -> http_error_msg r = "".
Proof.
  unfold status_4xx_5xx, http_error_msg. intros Hs.
  destruct ((400 <=? status_code r) && (status_code r <? 500))%Z eqn:Hc.
  - apply andb_true_iff in Hc. lia.
  - destruct ((500 <=? status_code r) && (status_code r <? 600))%Z eqn:Hd.
    + apply andb_true_iff in Hd. lia.
    + reflexivity.
Qed.

Lemma eqb_empty_false (s : string) : s <> "" -> String.eqb s "" = false.
Proof. intros Hs. apply String.eqb_neq. exact Hs. Qed.

Lemma get_set_same {V : Type} (k : string) (v : V) (d : PyDict.t V) :
  PyDict.get k (PyDict.set k v d) = Some v.
Proof.
  induction d as [| [k' v'] rest IH]; simpl.
  - rewrite String.eqb_refl. reflexivity.
  - destruct (String.eqb k k') eqn:Hk; simpl; rewrite Hk; [reflexivity | exact IH].
Qed.

Lemma get_set_other {V : Type} (k k' : string) (v : V) (d : PyDict.t V) :
  k <> k' -> PyDict.get k' (PyDict.set k v d) = PyDict.get k' d.
Proof.
  intros Hne. induction d as [| [k0 v0] rest IH]; simpl.
  - destruct (String.eqb k' k) eqn:Hk; [| reflexivity].
    apply String.eqb_eq in Hk. congruence.
  - destruct (String.eqb k k0) eqn:Hk; simpl.
    + apply String.eqb_eq in Hk. subst k0.
      destruct (String.eqb k' k) eqn:Hk'; [| reflexivity].
      apply String.eqb_eq in Hk'. congruence.
    + rewrite IH. reflexivity.
Qed.

Lemma keys_set {V : Type} (k : string) (v : V) (d : PyDict.t V) :
  PyDict.keys (PyDict.set k v d) = add_key (PyDict.keys d) k.
Proof.
  unfold add_key. induction d as [| [k' v'] rest IH]; simpl; [reflexivity |].
  destruct (String.eqb k k'); simpl; [reflexivity |].
  fold (PyDict.keys (PyDict.set k v rest)). rewrite IH.
  fold (PyDict.keys rest).
  destruct (existsb (String.eqb k) (PyDict.keys rest)); reflexivity.
Qed.

Lemma values_set {V : Type} (P : V -> Prop) (k : string) (v : V) (d : PyDict.t V) :
  P v -> Forall P (PyDict.values d) -> Forall P (PyDict.values (PyDict.set k v d)).
Proof.
  intros Hv. induction d as [| [k' v'] rest IH]; simpl; intros Hd.
  - repeat constructor. exact Hv.
  - inversion Hd as [| ? ? Hv' Hrest]; subst.
    destruct (String.eqb k k'); simpl; constructor; auto.
Qed.

Lemma existsb_eqb_In (k : string) (ks : list string) :
  existsb (String.eqb k) ks = true <-> In k ks.
Proof.
  rewrite existsb_exists. split.
  - intros [x [Hin Heq]]. apply String.eqb_eq in Heq. subst. exact Hin.
  - intros Hin. exists k. split; [exact Hin | apply String.eqb_refl].
Qed.

Lemma In_add_key (u k : string) (ks : list string) :
  In u (add_key ks k) <-> In u ks \/ u = k.
Proof.
  unfold add_key. destruct (existsb (String.eqb k) ks) eqn:Hk.
  - apply existsb_eqb_In in Hk. split; [auto |].
    intros [H | ->]; assumption.
  - rewrite in_app_iff. simpl. intuition congruence.
Qed.

Lemma In_fold_add_key (u : string) (l ks : list string) :
  In u (fold_left add_key l ks) <-> In u ks \/ In u l.
Proof.
  revert ks. induction l as [| x l IH]; intros ks; simpl.
  - tauto.
  - rewrite IH, In_add_key. intuition congruence.
Qed.

Lemma fold_add_key_NoDup (l ks : list string) :
  NoDup (ks ++ l) -> fold_left add_key l ks = ks ++ l.
Proof.
  revert ks. induction l as [| x l IH]; intros ks Hnd; simpl.
  - rewrite app_nil_r. reflexivity.
  - assert (Hx : existsb (String.eqb x) ks = false).
    { destruct (existsb (String.eqb x) ks) eqn:Hk; [| reflexivity].
      apply existsb_eqb_In in Hk. apply NoDup_remove_2 in Hnd.
      exfalso. apply Hnd. apply in_or_app. left. exact Hk. }
    unfold add_key at 2. rewrite Hx.
    rewrite IH; rewrite <- app_assoc; [reflexivity | exact Hnd].
Qed.

Lemma first_occurrences_NoDup (urls : list string) :
  NoDup urls -> first_occurrences urls = urls.
Proof. intros Hnd. apply (fold_add_key_NoDup urls []). exact Hnd. Qed.

Lemma http_calls_app (t t' : Trace) : http_calls (t ++ t') = http_calls t ++ http_calls t'.
Proof. apply filter_app. Qed.

(** ** The loop of the bulk operations *)

Section BulkLoop.

Variable notice : string -> string.
Variable op : string -> M Result.
Variable request : string -> Request.

(** The operation repeated by the loop returns a result, whatever happens,
    and leaves its one request in the trace. *)
Hypothesis op_run :
  forall u t, exists r, op u t = (inr r, t ++ [EvRequest (request u)]).

Lemma bulk_step (u : string) (results : PyDict.t Result) (t : Trace) :
  exists r,
    fst (op u (t ++ [EvPrint (notice u)])) = inr r /\
    (print (notice u) ;;; r <- op u ;; ret (PyDict.set u r results)) t
    = (inr (PyDict.set u r results),
       t ++ [EvPrint (notice u); EvRequest (request u)]).
Proof.
  destruct (op_run u (t ++ [EvPrint (notice u)])) as [r Hr].
  exists r. unfold bind, print. rewrite Hr. split; [reflexivity |].
  unfold ret. rewrite <- app_assoc. reflexivity.
Qed.

Lemma bulk_loop (urls : list string) :
  forall (d0 : PyDict.t Result) (t : Trace),
  exists d,
    for_each urls
      (fun url results =>
         print (notice url) ;;; r <- op url ;; ret (PyDict.set url r results))
      d0 t
    = (inr d, t ++ bulk_events notice request urls) /\
    PyDict.keys d = fold_left add_key urls (PyDict.keys d0) /\
    (forall u, ~ In u urls -> PyDict.get u d = PyDict.get u d0) /\
    (forall i u, nth_error urls i = Some u -> ~ In u (skipn (S i) urls) ->
       exists r,
         fst (op u (t ++ bulk_events notice request (firstn i urls)
                      ++ [EvPrint (notice u)])) = inr r /\
         PyDict.get u d = Some r) /\
    (forall P : Result -> Prop,
       (forall u t r, fst (op u t) = inr r -> P r) ->
       Forall P (PyDict.values d0) -> Forall P (PyDict.values d)).
Proof.
  induction urls as [| u urls IH]; intros d0 t.
  - exists d0. simpl. rewrite app_nil_r.
    repeat split; auto.
    intros i u Hnth. destruct i; discriminate.
  - destruct (bulk_step u d0 t) as [r [Hr Hstep]].
    destruct (IH (PyDict.set u r d0)
                (t ++ [EvPrint (notice u); EvRequest (request u)]))
      as [d [Hrun [Hkeys [Hout [Hidx Hall]]]]].
    exists d. split; [| split; [| split; [| split]]].
    + cbn [for_each]. unfold bind at 1. rewrite Hstep, Hrun.
      rewrite <- app_assoc. reflexivity.
    + rewrite Hkeys, keys_set. reflexivity.
    + intros u' Hnin. rewrite Hout by (intros Hin; apply Hnin; right; exact Hin).
      apply get_set_other. intros ->. apply Hnin. left. reflexivity.
    + intros [| i] u' Hnth Hlast.
      * injection Hnth as <-. exists r. split.
        -- exact Hr.
        -- rewrite (Hout u Hlast). apply get_set_same.
      * destruct (Hidx i u' Hnth Hlast) as [r' [Hr' Hget]].
        exists r'. split; [| exact Hget].
        rewrite <- Hr'. cbn [firstn bulk_events flat_map].
        rewrite <- !app_assoc. reflexivity.
    + intros P Hop Hd0. apply Hall; [exact Hop |].
      apply values_set; [| exact Hd0]. exact (Hop _ _ _ Hr).
Qed.

End BulkLoop.

Section Properties.

Context {env : Env}.

(** ** One request, one result *)

(** The body shared by the five operations: send, check the status, decode,
    and turn whatever was raised into an error dictionary. *)
Lemma call_run (q : Request) (t : Trace) :
  try_except
    (response <- requests_request q ;;
     raise_for_status response ;;;
     data <- response_json response ;;
     ret [("status", JStr "success"); ("data", data)])
    (fun e => ret [("status", JStr "error"); ("error", JStr (exn_str e))]) t
  = (inr (result_of (network t q)), t ++ [EvRequest q]).
Proof.
  unfold try_except, bind, requests_request, raise_for_status, response_json,
    result_of.
  destruct (network t q) as [e | resp]; [reflexivity |].
  destruct (String.eqb (http_error_msg resp) "") eqn:Hmsg; [| reflexivity].
  unfold ret. destruct (json_loads (text resp)) as [e | body]; reflexivity.
Qed.

Lemma run_operation_spec (key : string) (op : Operation) (u : string) (t : Trace) :
  run_operation (__init__ key) op u t
  = (inr (result_of (network t (table_request key op u))),
     t ++ [EvRequest (table_request key op u)]).
Proof.
  destruct op; exact (call_run _ t).
Qed.

Lemma result_of_failed (out : Exn + Response) (msg : string) :
  failed_request out msg -> result_of out = Failure msg.
Proof.
  intros [e -> | resp -> Hs | resp e -> Hs Hbody]; unfold result_of.
  - reflexivity.
  - rewrite (eqb_empty_false _ (http_error_msg_rejected _ Hs)). reflexivity.
  - rewrite (http_error_msg_passed _ Hs), Hbody. reflexivity.
Qed.

Lemma result_of_shape (out : Exn + Response) : result_shape (result_of out).
Proof.
  unfold result_of.
  destruct out as [e | resp].
  - right. exists (exn_str e). repeat split.
  - destruct (String.eqb (http_error_msg resp) "").
    + destruct (json_loads (text resp)) as [e | body].
      * right. exists (exn_str e). repeat split.
      * left. exists body. repeat split.
    + right. exists (http_error_msg resp). repeat split.
Qed.

Lemma failed_request_gives_failure (key : string) (op : Operation) (u : string)
    (t : Trace) (msg : string) :
  failed_request (network t (table_request key op u)) msg ->
  fst (run_operation (__init__ key) op u t) = inr (Failure msg).
Proof.
  intros Hfail. rewrite run_operation_spec. cbn [fst].
  rewrite (result_of_failed _ _ Hfail). reflexivity.
Qed.

(** C5.  Every operation hands the HTTP library exactly one request, the
    one of the operation table: GET or POST on the instance URL followed by
    the operation's path, with the operation's timeout and, for the two
    POSTs, the configuration as JSON body; its headers are
    [Authorization: Admin <credential>] and
    [Content-Type: application/json], built from the credential given to
    the constructor. *)
Theorem operations_issue_table_request (key : string) (u : string) (t : Trace) :
  snd (ping (__init__ key) u t)
    = t ++ [EvRequest (mkRequest GET (u ^ "/api/admin/ping")
              [("Authorization", "Admin " ^ key);
               ("Content-Type", "application/json")] JNull 10)] /\
  snd (health_check (__init__ key) u t)
    = t ++ [EvRequest (mkRequest GET (u ^ "/api/admin/health")
              [("Authorization", "Admin " ^ key);
               ("Content-Type", "application/json")] JNull 30)] /\
  snd (system_info (__init__ key) u t)
    = t ++ [EvRequest (mkRequest GET (u ^ "/api/admin/info")
              [("Authorization", "Admin " ^ key);
               ("Content-Type", "application/json")] JNull 15)] /\
  (forall config,
     snd (deploy_integration (__init__ key) u config t)
       = t ++ [EvRequest (mkRequest POST (u ^ "/api/admin/integrations/deploy")
                 [("Authorization", "Admin " ^ key);
                  ("Content-Type", "application/json")] config 60)]) /\
  (forall config,
     snd (execute_migration (__init__ key) u config t)
       = t ++ [EvRequest (mkRequest POST (u ^ "/api/admin/migrations/execute")
                 [("Authorization", "Admin " ^ key);
                  ("Content-Type", "application/json")] config 120)]) /\
  (forall op, snd (run_operation (__init__ key) op u t)
                = t ++ [EvRequest (table_request key op u)]).
Proof.
  repeat split; intros;
    try (rewrite run_operation_spec; reflexivity);
    unfold ping, health_check, system_info, deploy_integration,
      execute_migration, requests_get, requests_post;
    rewrite call_run; reflexivity.
Qed.

(** ** The single-instance operations *)

(** C1 (amended).  Each of the five operations returns a result dictionary
    for every outcome of its request and never lets an exception reach the
    caller.  The result is a Failure carrying the message of the error when
    the transport raised (connection error, timeout), when the status is a
    client or server error (400 to 599), and when the status passed and the
    body does not decode as JSON. *)
Theorem operations_never_raise (key : string) (op : Operation) (u : string)
    (t : Trace) :
  (exists r, fst (run_operation (__init__ key) op u t) = inr r) /\
  (forall msg,
     failed_request (network t (table_request key op u)) msg ->
     fst (run_operation (__init__ key) op u t) = inr (Failure msg)).
Proof.
  split.
  - rewrite run_operation_spec. eexists. reflexivity.
  - apply failed_request_gives_failure.
Qed.

(** C3 (amended).  For each of the five operations, a response whose status
    is a client or server error (400 to 599) makes the operation return a
    Failure whose message, the one [raise_for_status] builds, is not
    empty. *)
Theorem error_status_is_failure (key : string) (op : Operation) (u : string)
    (t : Trace) (resp : Response) :
  network t (table_request key op u) = inr resp ->
  status_4xx_5xx resp ->
  fst (run_operation (__init__ key) op u t) = inr (Failure (http_error_msg resp))
  /\ http_error_msg resp <> "".
Proof.
  intros Hnet Hs. split.
  - apply failed_request_gives_failure. apply status_failed with (resp := resp);
      assumption.
  - apply http_error_msg_rejected. exact Hs.
Qed.

(** C4.  For each of the five operations, a response with a 2xx status and
    a body that decodes as JSON makes the operation return a Success whose
    body is the decoded value. *)
Theorem success_returns_parsed_body (key : string) (op : Operation) (u : string)
    (t : Trace) (resp : Response) (body : JSON) :
  network t (table_request key op u) = inr resp ->
  status_2xx resp ->
  json_loads (text resp) = inr body ->
  fst (run_operation (__init__ key) op u t) = inr (Success body).
Proof.
  intros Hnet Hs Hbody. rewrite run_operation_spec. cbn [fst].
  unfold result_of. rewrite Hnet.
  rewrite http_error_msg_passed by (unfold status_2xx, status_4xx_5xx in *; lia).
  cbn [String.eqb]. rewrite Hbody. reflexivity.
Qed.

Lemma post_carries_config (self : PlatformAdminManager) (u : string)
    (config : JSON) (t : Trace) :
  (exists q, snd (deploy_integration self u config t) = t ++ [EvRequest q] /\
             req_method q = POST /\ req_json q = config) /\
  (exists q, snd (execute_migration self u config t) = t ++ [EvRequest q] /\
             req_method q = POST /\ req_json q = config).
Proof.
  split; eexists;
    unfold deploy_integration, execute_migration, requests_post;
    rewrite call_run; repeat split.
Qed.

(** C8 (amended).  For every configuration other than the document [null]
    that the serialiser of [requests] accepts, the body of the one POST that
    [deploy_integration] or [execute_migration] issues is the serialisation
    of the supplied configuration itself, whatever the manager is: nothing
    of it is read, checked, dropped or filled in on the way. *)
Theorem config_sent_verbatim (encode : JSON -> Exn + string)
    (self : PlatformAdminManager) (u : string) (config : JSON) (body : string)
    (t : Trace) :
  config <> JNull ->
  encode config = inr body ->
  (exists q, snd (deploy_integration self u config t) = t ++ [EvRequest q] /\
             req_method q = POST /\
             prepare_body encode q = inr (Some body)) /\
  (exists q, snd (execute_migration self u config t) = t ++ [EvRequest q] /\
             req_method q = POST /\
             prepare_body encode q = inr (Some body)).
Proof.
  intros Hconfig Hencode.
  assert (Hbody : forall q, req_json q = config ->
                            prepare_body encode q = inr (Some body)).
  { intros q Hq. unfold prepare_body. rewrite Hq.
    destruct config; try (rewrite Hencode; reflexivity). contradiction. }
  destruct (post_carries_config self u config t)
    as [[q1 [Ht1 [Hm1 Hj1]]] [q2 [Ht2 [Hm2 Hj2]]]].
  split; [exists q1 | exists q2]; auto.
Qed.

(** The two ways an operation ends: with the decoded body of the response,
    or with the message of one of the failures. *)
Lemma result_of_cases (out : Exn + Response) :
  (exists resp body,
     out = inr resp /\ json_loads (text resp) = inr body /\
     result_of out = Success body) \/
  (exists msg, failed_request out msg /\ result_of out = Failure msg).
Proof.
  destruct out as [e | resp].
  - right. exists (exn_str e). split; [| reflexivity].
    apply transport_failed. reflexivity.
  - assert (Hdec : status_4xx_5xx resp \/ ~ status_4xx_5xx resp)
      by (unfold status_4xx_5xx; lia).
    destruct Hdec as [Hs | Hs].
    + right. exists (http_error_msg resp).
      assert (Hf : failed_request (inr resp) (http_error_msg resp))
        by (apply status_failed with (resp := resp); [reflexivity | exact Hs]).
      split; [exact Hf | apply result_of_failed; exact Hf].
    + destruct (json_loads (text resp)) as [e | body] eqn:Hbody.
      * right. exists (exn_str e).
        assert (Hf : failed_request (inr resp) (exn_str e))
          by (apply body_failed with (resp := resp); auto).
        split; [exact Hf | apply result_of_failed; exact Hf].
      * left. exists resp, body. repeat split; [exact Hbody |].
        unfold result_of. rewrite (http_error_msg_passed _ Hs), Hbody.
        reflexivity.
Qed.

(** ** The bulk operations *)

Lemma health_check_run (key : string) (u : string) (t : Trace) :
  exists r, health_check (__init__ key) u t
            = (inr r, t ++ [EvRequest (table_request key HealthCheck u)]).
Proof. eexists. exact (run_operation_spec key HealthCheck u t). Qed.

Lemma deploy_integration_run (key : string) (config : JSON) (u : string)
    (t : Trace) :
  exists r, deploy_integration (__init__ key) u config t
            = (inr r, t ++ [EvRequest (table_request key (DeployIntegration config) u)]).
Proof. eexists. exact (run_operation_spec key (DeployIntegration config) u t). Qed.

Lemma health_check_shape (key : string) (u : string) (t : Trace) (r : Result) :
  fst (health_check (__init__ key) u t) = inr r -> result_shape r.
Proof.
  change (health_check (__init__ key) u t)
    with (run_operation (__init__ key) HealthCheck u t).
  rewrite run_operation_spec. cbn [fst]. intros [= <-]. apply result_of_shape.
Qed.

Lemma deploy_integration_shape (key : string) (config : JSON) (u : string)
    (t : Trace) (r : Result) :
  fst (deploy_integration (__init__ key) u config t) = inr r -> result_shape r.
Proof.
  change (deploy_integration (__init__ key) u config t)
    with (run_operation (__init__ key) (DeployIntegration config) u t).
  rewrite run_operation_spec. cbn [fst]. intros [= <-]. apply result_of_shape.
Qed.

(** C2.  [bulk_health_check] runs the single-instance health check on the
    supplied instances in the supplied order: what it adds to the trace is,
    for each instance in turn, the progress line naming it and then its
    request.  It returns a dictionary whose keys are exactly the supplied
    instances, and the instance at each position is mapped to what its own
    health check returned at that point (for an instance supplied more than
    once, at its last position).  No outcome of any request stops the loop
    or changes what another instance is mapped to.  The same holds for
    [bulk_deploy_integration], with one configuration for all. *)
Theorem bulk_operations_isolated (key : string) (urls : list string) (t : Trace) :
  (exists results,
     bulk_health_check (__init__ key) urls t
     = (inr results,
        t ++ bulk_events health_notice (table_request key HealthCheck) urls) /\
     (forall u, In u (PyDict.keys results) <-> In u urls) /\
     (forall i u,
        nth_error urls i = Some u -> ~ In u (skipn (S i) urls) ->
        exists r,
          fst (health_check (__init__ key) u
                 (t ++ bulk_events health_notice (table_request key HealthCheck)
                         (firstn i urls)
                    ++ [EvPrint (health_notice u)])) = inr r /\
          PyDict.get u results = Some r)) /\
  (forall config,
   exists results,
     bulk_deploy_integration (__init__ key) urls config t
     = (inr results,
        t ++ bulk_events deploy_notice
               (table_request key (DeployIntegration config)) urls) /\
     (forall u, In u (PyDict.keys results) <-> In u urls) /\
     (forall i u,
        nth_error urls i = Some u -> ~ In u (skipn (S i) urls) ->
        exists r,
          fst (deploy_integration (__init__ key) u config
                 (t ++ bulk_events deploy_notice
                         (table_request key (DeployIntegration config))
                         (firstn i urls)
                    ++ [EvPrint (deploy_notice u)])) = inr r /\
          PyDict.get u results = Some r)).
Proof.
  split; [| intros config].
  - destruct (bulk_loop health_notice (health_check (__init__ key))
                (table_request key HealthCheck) (health_check_run key)
                urls PyDict.empty t)
      as [d [Hrun [Hkeys [_ [Hidx _]]]]].
    exists d. split; [exact Hrun | split; [| exact Hidx]].
    intros u. rewrite Hkeys, In_fold_add_key. simpl. tauto.
  - destruct (bulk_loop deploy_notice
                (fun u => deploy_integration (__init__ key) u config)
                (table_request key (DeployIntegration config))
                (deploy_integration_run key config)
                urls PyDict.empty t)
      as [d [Hrun [Hkeys [_ [Hidx _]]]]].
    exists d. split; [exact Hrun | split; [| exact Hidx]].
    intros u. rewrite Hkeys, In_fold_add_key. simpl. tauto.
Qed.

(** C6 (amended).  The dictionary a bulk operation returns has one entry
    per distinct instance reference, and its keys stand in the order in
    which the references were first supplied; when no reference is supplied
    twice, the keys are the supplied sequence itself. *)
Theorem bulk_result_key_order (key : string) (urls : list string) (t : Trace) :
  (exists results,
     fst (bulk_health_check (__init__ key) urls t) = inr results /\
     PyDict.keys results = first_occurrences urls /\
     (NoDup urls -> PyDict.keys results = urls)) /\
  (forall config,
   exists results,
     fst (bulk_deploy_integration (__init__ key) urls config t) = inr results /\
     PyDict.keys results = first_occurrences urls /\
     (NoDup urls -> PyDict.keys results = urls)).
Proof.
  split; [| intros config].
  - destruct (bulk_loop health_notice (health_check (__init__ key))
                (table_request key HealthCheck) (health_check_run key)
                urls PyDict.empty t)
      as [d [Hrun [Hkeys _]]].
    exists d. split; [| split].
    + unfold bulk_health_check, health_notice in *. rewrite Hrun. reflexivity.
    + exact Hkeys.
    + intros Hnd. rewrite Hkeys. apply first_occurrences_NoDup. exact Hnd.
  - destruct (bulk_loop deploy_notice
                (fun u => deploy_integration (__init__ key) u config)
                (table_request key (DeployIntegration config))
                (deploy_integration_run key config)
                urls PyDict.empty t)
      as [d [Hrun [Hkeys _]]].
    exists d. split; [| split].
    + unfold bulk_deploy_integration, deploy_notice in *. rewrite Hrun.
      reflexivity.
    + exact Hkeys.
    + intros Hnd. rewrite Hkeys. apply first_occurrences_NoDup. exact Hnd.
Qed.

(** C9.  What each of the five operations returns is a dictionary whose
    [status] is [success] or [error].  With [success] it has a [data] field
    holding the decoded body of the response and no [error] field; with
    [error] it has an [error] field holding the message of the failure and
    no [data] field.  Every value of the dictionary a bulk operation
    returns has this shape. *)
Theorem results_keep_result_shape (key : string) (t : Trace) :
  (forall op u,
   exists r,
     fst (run_operation (__init__ key) op u t) = inr r /\
     ((exists resp body,
         network t (table_request key op u) = inr resp /\
         json_loads (text resp) = inr body /\
         success_shape r body) \/
      (exists msg,
         failed_request (network t (table_request key op u)) msg /\
         error_shape r msg))) /\
  (forall urls,
   exists results,
     fst (bulk_health_check (__init__ key) urls t) = inr results /\
     Forall result_shape (PyDict.values results)) /\
  (forall urls config,
   exists results,
     fst (bulk_deploy_integration (__init__ key) urls config t) = inr results /\
     Forall result_shape (PyDict.values results)).
Proof.
  split; [| split].
  - intros op u. rewrite run_operation_spec. eexists. split; [reflexivity |].
    destruct (result_of_cases (network t (table_request key op u)))
      as [[resp [body [Hnet [Hbody ->]]]] | [msg [Hfail ->]]].
    + left. exists resp, body. repeat split; assumption.
    + right. exists msg. repeat split. exact Hfail.
  - intros urls.
    destruct (bulk_loop health_notice (health_check (__init__ key))
                (table_request key HealthCheck) (health_check_run key)
                urls PyDict.empty t)
      as [d [Hrun [_ [_ [_ Hall]]]]].
    exists d. split.
    + unfold bulk_health_check, health_notice in *. rewrite Hrun. reflexivity.
    + apply Hall; [apply health_check_shape | constructor].
  - intros urls config.
    destruct (bulk_loop deploy_notice
                (fun u => deploy_integration (__init__ key) u config)
                (table_request key (DeployIntegration config))
                (deploy_integration_run key config)
                urls PyDict.empty t)
      as [d [Hrun [_ [_ [_ Hall]]]]].
    exists d. split.
    + unfold bulk_deploy_integration, deploy_notice in *. rewrite Hrun.
      reflexivity.
    + apply Hall; [intros u t' r; apply deploy_integration_shape | constructor].
Qed.

(** ** The command line *)

(** C7.  With the action [deploy] or [migrate] and no [--config-file], the
    entry point prints the line saying that the file is required and
    returns: that line is all it adds to the trace, so no request is
    issued. *)
Theorem missing_config_file_sends_nothing (key inst : string) (t : Trace) :
  main (mkArgs key inst ActDeploy None) t
    = (inr tt, t ++ [EvPrint "--config-file required for deploy action"]) /\
  main (mkArgs key inst ActMigrate None) t
    = (inr tt, t ++ [EvPrint "--config-file required for migrate action"]) /\
  http_calls (snd (main (mkArgs key inst ActDeploy None) t)) = http_calls t /\
  http_calls (snd (main (mkArgs key inst ActMigrate None) t)) = http_calls t.
Proof.
  repeat split; cbn [main arg_action arg_config_file print snd];
    rewrite http_calls_app; cbn; apply app_nil_r.
Qed.

(** C10 (amended).  With the action [deploy] or [migrate] and a
    [--config-file] path that is not the empty string, when the file cannot
    be read or its contents do not decode as JSON, the entry point raises
    that error to its caller; the trace is left as it was, so no request is
    issued and nothing is printed. *)
Theorem unreadable_config_file_raises (key inst : string) (action : Action)
    (path : string) (e : Exn) (t : Trace) :
  action = ActDeploy \/ action = ActMigrate ->
  path <> "" ->
  read_file path = inl e \/
  (exists contents, read_file path = inr contents /\ json_loads contents = inl e) ->
  main (mkArgs key inst action (Some path)) t = (inl e, t).
Proof.
  intros Haction Hpath Hfile.
  destruct path as [| c path]; [contradiction |].
  assert (Hload : json_load_file (String c path) t = (inl e, t)).
  { unfold json_load_file.
    destruct Hfile as [-> | [contents [-> Hdecode]]]; [reflexivity |].
    rewrite Hdecode. reflexivity. }
  destruct Haction as [-> | ->];
    cbn [main arg_action arg_config_file]; unfold bind at 1;
    rewrite Hload; reflexivity.
Qed.

End Properties.

(** * The operations on concrete inputs *)

(** A refused connection makes [ping] return a Failure with the message of
    the transport error. *)
Lemma operations_never_raise_witness :
  fst (run_operation (env := sample_env) (__init__ "s3cret") Ping
         "https://down.example.com" [])
  = inr (Failure "Connection refused").
Proof.
  apply (proj2 (operations_never_raise (env := sample_env) "s3cret" Ping
                  "https://down.example.com" [])).
  apply (transport_failed (env := sample_env) _
           (mkExn "ConnectionError" "Connection refused")).
  reflexivity.
Defined.

(** C1 as stated fails: a status outside the 2xx range does not always give
    a Failure.  The instance answers 300 with a JSON body, [ping] returns a
    Success. *)
Lemma ping_status_300_succeeds :
  network (Env := sample_env) []
    (table_request "s3cret" Ping "https://choices.example.com")
  = inr (mkResponse 300 "Multiple Choices"
           "https://choices.example.com/api/admin/ping" "[]") /\
  ~ (200 <= 300 < 300)%Z /\
  ping (env := sample_env) (__init__ "s3cret") "https://choices.example.com" []
  = (inr (Success (JArr [])),
     [EvRequest (table_request "s3cret" Ping "https://choices.example.com")]) /\
  ~ (exists msg,
       fst (ping (env := sample_env) (__init__ "s3cret")
              "https://choices.example.com" [])
       = inr (Failure msg)).
Proof.
  repeat split; try lia.
  intros [msg Hmsg]. vm_compute in Hmsg. discriminate.
Qed.

(** A 404 makes [ping] return a Failure with the message of the HTTP
    error. *)
Lemma error_status_is_failure_witness :
  fst (run_operation (env := sample_env) (__init__ "s3cret") Ping
         "https://gone.example.com" [])
  = inr (Failure
           "404 Client Error: Not Found for url: https://gone.example.com/api/admin/ping")
  /\ "404 Client Error: Not Found for url: https://gone.example.com/api/admin/ping"
     <> "".
Proof.
  apply (error_status_is_failure (env := sample_env) "s3cret" Ping
           "https://gone.example.com" []
           (mkResponse 404 "Not Found"
              "https://gone.example.com/api/admin/ping" "Not Found")).
  - reflexivity.
  - unfold status_4xx_5xx. simpl. lia.
Defined.

(** C3 as stated fails: the instance answers 300 with a JSON body and
    [health_check] returns a Success, not a Failure. *)
Lemma health_check_status_300_succeeds :
  network (Env := sample_env) []
    (table_request "s3cret" HealthCheck "https://choices.example.com")
  = inr (mkResponse 300 "Multiple Choices"
           "https://choices.example.com/api/admin/health" "[]") /\
  ~ (200 <= 300 < 300)%Z /\
  fst (health_check (env := sample_env) (__init__ "s3cret")
         "https://choices.example.com" [])
  = inr (Success (JArr [])) /\
  ~ (exists msg,
       fst (health_check (env := sample_env) (__init__ "s3cret")
              "https://choices.example.com" [])
       = inr (Failure msg) /\ msg <> "").
Proof.
  repeat split; try lia.
  intros [msg [Hmsg _]]. vm_compute in Hmsg. discriminate.
Qed.

(** A 200 with the body of an empty object makes a deployment return a
    Success holding the empty object. *)
Lemma success_returns_parsed_body_witness :
  fst (run_operation (env := sample_env) (__init__ "s3cret")
         (DeployIntegration (JObj [("version", JStr "2.1.0")]))
         "https://a.example.com" [])
  = inr (Success (JObj [])).
Proof.
  apply (success_returns_parsed_body (env := sample_env) "s3cret"
           (DeployIntegration (JObj [("version", JStr "2.1.0")]))
           "https://a.example.com" []
           (mkResponse 200 "OK"
              "https://a.example.com/api/admin/integrations/deploy" "{}")).
  - reflexivity.
  - unfold status_2xx. simpl. lia.
  - reflexivity.
Defined.

(** An empty object as configuration: the body of the deployment is its
    serialisation. *)
Lemma config_sent_verbatim_witness :
  exists q,
    snd (deploy_integration (env := sample_env) sample_manager
           "https://a.example.com" (JObj []) [])
    = [] ++ [EvRequest q] /\
    req_method q = POST /\
    prepare_body sample_encode q = inr (Some "{}").
Proof.
  apply (config_sent_verbatim (env := sample_env) sample_encode sample_manager
           "https://a.example.com" (JObj []) "{}" []).
  - discriminate.
  - reflexivity.
Defined.

(** C8 as stated fails: a configuration file that holds the document [null]
    decodes to [None]; the deployment [main] then issues has no body, and
    not the serialisation of the configuration. *)
Lemma null_config_sends_no_body :
  json_load_file (env := null_file_env) "config.json" [] = (inr JNull, []) /\
  sample_encode JNull = inr "null" /\
  main (env := null_file_env)
    (mkArgs "s3cret" "https://a.example.com" ActDeploy (Some "config.json")) []
  = (inr tt,
     [EvRequest (table_request "s3cret" (DeployIntegration JNull)
                   "https://a.example.com");
      EvPrint "{ status: success }"]) /\
  prepare_body sample_encode
    (table_request "s3cret" (DeployIntegration JNull) "https://a.example.com")
  = inr None /\
  prepare_body sample_encode
    (table_request "s3cret" (DeployIntegration JNull) "https://a.example.com")
  <> inr (Some "null").
Proof.
  repeat split. discriminate.
Qed.

(** Three instances, the second one down: the first and the third are
    checked all the same and each instance is mapped to its own outcome. *)
Lemma bulk_operations_isolated_witness :
  exists results,
    bulk_health_check (env := sample_env) (__init__ "s3cret")
      ["https://a.example.com"; "https://down.example.com";
       "https://b.example.com"] []
    = (inr results,
       [EvPrint "Checking health for https://a.example.com...";
        EvRequest (table_request "s3cret" HealthCheck "https://a.example.com");
        EvPrint "Checking health for https://down.example.com...";
        EvRequest (table_request "s3cret" HealthCheck "https://down.example.com");
        EvPrint "Checking health for https://b.example.com...";
        EvRequest (table_request "s3cret" HealthCheck "https://b.example.com")]) /\
    PyDict.get "https://a.example.com" results = Some (Success (JObj [])) /\
    PyDict.get "https://down.example.com" results
      = Some (Failure "Connection refused") /\
    PyDict.get "https://b.example.com" results = Some (Success (JObj [])).
Proof.
  destruct (proj1 (bulk_operations_isolated (env := sample_env) "s3cret"
                     ["https://a.example.com"; "https://down.example.com";
                      "https://b.example.com"] []))
    as [results [Hrun [_ Hidx]]].
  exists results. split; [exact Hrun |].
  repeat split.
  - destruct (Hidx 0%nat "https://a.example.com" eq_refl) as [r [Hr ->]].
    + simpl. intros [H | [H | []]]; discriminate.
    + vm_compute in Hr. injection Hr as <-. reflexivity.
  - destruct (Hidx 1%nat "https://down.example.com" eq_refl) as [r [Hr ->]].
    + simpl. intros [H | []]; discriminate.
    + vm_compute in Hr. injection Hr as <-. reflexivity.
  - destruct (Hidx 2%nat "https://b.example.com" eq_refl) as [r [Hr ->]].
    + simpl. intros [].
    + vm_compute in Hr. injection Hr as <-. reflexivity.
Defined.

(** Two distinct instances: the keys are the two, in the order supplied. *)
Lemma bulk_result_key_order_witness :
  exists results,
    fst (bulk_health_check (env := sample_env) (__init__ "s3cret")
           ["https://a.example.com"; "https://b.example.com"] [])
    = inr results /\
    PyDict.keys results = ["https://a.example.com"; "https://b.example.com"].
Proof.
  destruct (proj1 (bulk_result_key_order (env := sample_env) "s3cret"
                     ["https://a.example.com"; "https://b.example.com"] []))
    as [results [Hrun [_ Hdistinct]]].
  exists results. split; [exact Hrun |].
  apply Hdistinct. repeat constructor; simpl.
  - intros [H | []]. discriminate.
  - intros [].
Defined.

(** C6 as stated fails: an instance supplied twice is called twice and
    contributes one entry, so the keys are not the supplied sequence. *)
Lemma bulk_result_merges_repeated_instance :
  bulk_health_check (env := sample_env) (__init__ "s3cret")
    ["https://a.example.com"; "https://a.example.com"] []
  = (inr [("https://a.example.com", Success (JObj []))],
     [EvPrint "Checking health for https://a.example.com...";
      EvRequest (table_request "s3cret" HealthCheck "https://a.example.com");
      EvPrint "Checking health for https://a.example.com...";
      EvRequest (table_request "s3cret" HealthCheck "https://a.example.com")]) /\
  ~ (exists results,
       fst (bulk_health_check (env := sample_env) (__init__ "s3cret")
              ["https://a.example.com"; "https://a.example.com"] [])
       = inr results /\
       PyDict.keys results = ["https://a.example.com"; "https://a.example.com"]).
Proof.
  split; [reflexivity |].
  intros [results [Hrun Hkeys]]. vm_compute in Hrun.
  injection Hrun as <-. discriminate.
Qed.

(** A path that names no file: [main] raises the error of [open] and issues
    no request. *)
Lemma unreadable_config_file_raises_witness :
  main (env := sample_env)
    (mkArgs "s3cret" "https://a.example.com" ActDeploy (Some "missing.json")) []
  = (inl (mkExn "FileNotFoundError"
            "[Errno 2] No such file or directory: 'missing.json'"), []).
Proof.
  apply (unreadable_config_file_raises (env := sample_env)).
  - left. reflexivity.
  - discriminate.
  - left. reflexivity.
Defined.

(** C10 as stated fails: the empty path names no readable file, yet [main]
    takes it for a missing argument, prints the usage line and returns
    without raising. *)
Lemma empty_config_path_prints_usage :
  read_file (Env := sample_env) ""
  = inl (mkExn "FileNotFoundError" "[Errno 2] No such file or directory: ''") /\
  main (env := sample_env)
    (mkArgs "s3cret" "https://a.example.com" ActDeploy (Some "")) []
  = (inr tt, [EvPrint "--config-file required for deploy action"]) /\
  ~ (exists e,
       fst (main (env := sample_env)
              (mkArgs "s3cret" "https://a.example.com" ActDeploy (Some "")) [])
       = inl e).
Proof.
  repeat split. intros [e He]. discriminate.
Qed.

(** * Further properties of the dispatcher *)

Lemma fold_add_key_length (l ks : list string) :
  (length (fold_left add_key l ks) <= length ks + length l)%nat.
Proof.
  revert ks. induction l as [| x l IH]; intros ks; simpl; [lia |].
  specialize (IH (add_key ks x)). unfold add_key in *.
  destruct (existsb (String.eqb x) ks); [lia |].
  rewrite length_app in IH. simpl in IH. lia.
Qed.

Lemma add_key_NoDup (ks : list string) (k : string) :
  NoDup ks -> NoDup (add_key ks k).
Proof.
  intros Hnd. unfold add_key.
  destruct (existsb (String.eqb k) ks) eqn:Hk; [exact Hnd |].
  apply NoDup_app; [exact Hnd | repeat constructor; intros [] |].
  intros x Hin [<- | []].
  apply existsb_eqb_In in Hin. congruence.
Qed.

Lemma fold_add_key_keeps_NoDup (l ks : list string) :
  NoDup ks -> NoDup (fold_left add_key l ks).
Proof.
  revert ks. induction l as [| x l IH]; intros ks Hnd; simpl; [exact Hnd |].
  apply IH. apply add_key_NoDup. exact Hnd.
Qed.

Lemma fold_add_key_full_length (l ks : list string) :
  NoDup ks ->
  length (fold_left add_key l ks) = (length ks + length l)%nat ->
  NoDup (ks ++ l).
Proof.
  revert ks. induction l as [| x l IH]; intros ks Hnd Hlen; simpl in *.
  - rewrite app_nil_r. exact Hnd.
  - pose proof (fold_add_key_length l (add_key ks x)) as Hle.
    unfold add_key in *.
    destruct (existsb (String.eqb x) ks) eqn:Hk; [lia |].
    assert (Hnd' : NoDup (ks ++ [x])).
    { pose proof (add_key_NoDup ks x Hnd) as H. unfold add_key in H.
      rewrite Hk in H. exact H. }
    specialize (IH (ks ++ [x]) Hnd').
    rewrite length_app, <- app_assoc in IH. simpl in IH.
    apply IH. lia.
Qed.

Lemma http_calls_bulk_events (notice : string -> string)
    (request : string -> Request) (urls : list string) :
  http_calls (bulk_events notice request urls)
  = map (fun u => EvRequest (request u)) urls.
Proof.
  induction urls as [| u urls IH]; [reflexivity |].
  cbn [bulk_events flat_map]. rewrite http_calls_app.
  fold (bulk_events notice request urls). rewrite IH. reflexivity.
Qed.

Lemma http_calls_prints (lines : list string) : http_calls (map EvPrint lines) = [].
Proof. induction lines as [| l lines IH]; [reflexivity | exact IH]. Qed.

Lemma for_each_app {A S : Type} (l1 l2 : list A) (body : A -> S -> M S) (s : S)
    (t : Trace) :
  for_each (l1 ++ l2) body s t
  = (s' <- for_each l1 body s ;; for_each l2 body s') t.
Proof.
  revert s t. induction l1 as [| x l1 IH]; intros s t; [reflexivity |].
  cbn [app for_each]. unfold bind.
  destruct (body x s t) as [[e | s'] t']; [reflexivity |].
  rewrite IH. reflexivity.
Qed.

(** A loop started from a dictionary that already has entries: each key the
    loop assigns reads as in the loop started from the empty dictionary, the
    others keep what they had. *)
Section BulkLoopFrom.

Variable notice : string -> string.
Variable op : string -> M Result.
Variable request : string -> Request.

Hypothesis op_run :
  forall u t, exists r, op u t = (inr r, t ++ [EvRequest (request u)]).

Lemma bulk_loop_from (urls : list string) :
  forall (da db d1 : PyDict.t Result) (t : Trace),
    (forall u, PyDict.get u da
               = match PyDict.get u db with
                 | Some r => Some r
                 | None => PyDict.get u d1
                 end) ->
    exists d d',
      for_each urls
        (fun url results =>
           print (notice url) ;;; r <- op url ;; ret (PyDict.set url r results))
        da t
      = (inr d, t ++ bulk_events notice request urls) /\
      for_each urls
        (fun url results =>
           print (notice url) ;;; r <- op url ;; ret (PyDict.set url r results))
        db t
      = (inr d', t ++ bulk_events notice request urls) /\
      (forall u, PyDict.get u d
                 = match PyDict.get u d' with
                   | Some r => Some r
                   | None => PyDict.get u d1
                   end).
Proof.
  induction urls as [| u urls IH]; intros da db d1 t Hrel.
  - exists da, db. simpl. rewrite app_nil_r. repeat split. exact Hrel.
  - destruct (bulk_step notice op request op_run u da t) as [r [Hr Hstep]].
    destruct (bulk_step notice op request op_run u db t) as [r' [Hr' Hstep']].
    assert (r' = r) by congruence. subst r'.
    destruct (IH (PyDict.set u r da) (PyDict.set u r db) d1
                (t ++ [EvPrint (notice u); EvRequest (request u)]))
      as [d [d' [Hd [Hd' Hget]]]].
    { intros u'. destruct (String.eqb u u') eqn:Heq.
      - apply String.eqb_eq in Heq. subst u'. rewrite !get_set_same. reflexivity.
      - apply String.eqb_neq in Heq. rewrite !get_set_other by exact Heq.
        apply Hrel. }
    exists d, d'. cbn [for_each bulk_events flat_map].
    unfold bind at 1. rewrite Hstep. unfold bind at 3. rewrite Hstep'.
    rewrite Hd, Hd', <- !app_assoc. repeat split. exact Hget.
Qed.

End BulkLoopFrom.

Section Coverage.

Context {env : Env}.

(** X1.  What an operation returns decides what its request met, and the
    other way round: a Success with a body exactly when a response came
    back with a status outside 400 to 599 and that body decoded from it, a
    Failure with a message exactly when the request failed with that
    message. *)
Theorem operation_outcome_characterised (key : string) (op : Operation)
    (u : string) (t : Trace) :
  (forall body,
     fst (run_operation (__init__ key) op u t) = inr (Success body) <->
     exists resp,
       network t (table_request key op u) = inr resp /\
       ~ status_4xx_5xx resp /\
       json_loads (text resp) = inr body) /\
  (forall msg,
     fst (run_operation (__init__ key) op u t) = inr (Failure msg) <->
     failed_request (network t (table_request key op u)) msg).
Proof.
  rewrite run_operation_spec. cbn [fst].
  destruct (result_of_cases (network t (table_request key op u)))
    as [[resp [body0 [Hnet [Hbody Hres]]]] | [msg0 [Hfail Hres]]];
    rewrite Hres; split.
  - intros body. split.
    + intros [= <-]. exists resp. repeat split; [exact Hnet | | exact Hbody].
      intros Hs. rewrite Hnet in Hres. unfold result_of in Hres.
      rewrite (eqb_empty_false _ (http_error_msg_rejected _ Hs)) in Hres.
      discriminate.
    + intros [resp' [Hnet' [_ Hbody']]]. congruence.
  - intros msg. split; [discriminate |].
    intros Hfail. apply result_of_failed in Hfail. congruence.
  - intros body. split; [discriminate |].
    intros [resp [Hnet [Hs Hbody]]].
    assert (Hok : result_of (network t (table_request key op u)) = Success body).
    { unfold result_of. rewrite Hnet, (http_error_msg_passed _ Hs), Hbody.
      reflexivity. }
    congruence.
  - intros msg. split.
    + intros [= <-]. exact Hfail.
    + intros Hfail'. apply result_of_failed in Hfail'. congruence.
Qed.

(** X2.  A bulk operation issues one request per supplied reference, in the
    supplied order, also for a reference supplied more than once; the
    deployments all carry the one configuration. *)
Theorem bulk_calls_every_reference (key : string) (urls : list string)
    (t : Trace) :
  http_calls (snd (bulk_health_check (__init__ key) urls t))
  = http_calls t
    ++ map (fun u => EvRequest (mkRequest GET (u ^ "/api/admin/health")
                                  [("Authorization", "Admin " ^ key);
                                   ("Content-Type", "application/json")]
                                  JNull 30)) urls /\
  (forall config,
     http_calls (snd (bulk_deploy_integration (__init__ key) urls config t))
     = http_calls t
       ++ map (fun u => EvRequest
                          (mkRequest POST (u ^ "/api/admin/integrations/deploy")
                             [("Authorization", "Admin " ^ key);
                              ("Content-Type", "application/json")]
                             config 60)) urls).
Proof.
  split; [| intros config].
  - destruct (bulk_loop health_notice (health_check (__init__ key))
                (table_request key HealthCheck) (health_check_run key)
                urls PyDict.empty t) as [d [Hrun _]].
    unfold bulk_health_check. unfold health_notice in Hrun. rewrite Hrun.
    cbn [snd]. rewrite http_calls_app, http_calls_bulk_events. reflexivity.
  - destruct (bulk_loop deploy_notice
                (fun u => deploy_integration (__init__ key) u config)
                (table_request key (DeployIntegration config))
                (deploy_integration_run key config)
                urls PyDict.empty t) as [d [Hrun _]].
    unfold bulk_deploy_integration. unfold deploy_notice in Hrun. rewrite Hrun.
    cbn [snd]. rewrite http_calls_app, http_calls_bulk_events. reflexivity.
Qed.

(** X3.  The dictionary a bulk health check returns never holds a key
    twice and never has more entries than references were supplied; it has
    as many exactly when no reference was supplied twice. *)
Theorem bulk_result_size (key : string) (urls : list string) (t : Trace) :
  exists results,
    fst (bulk_health_check (__init__ key) urls t) = inr results /\
    NoDup (PyDict.keys results) /\
    (length results <= length urls)%nat /\
    (length results = length urls <-> NoDup urls).
Proof.
  destruct (bulk_loop health_notice (health_check (__init__ key))
              (table_request key HealthCheck) (health_check_run key)
              urls PyDict.empty t) as [d [Hrun [Hkeys _]]].
  exists d. unfold bulk_health_check. unfold health_notice in Hrun.
  rewrite Hrun. split; [reflexivity |].
  assert (Hlen : length d = length (PyDict.keys d))
    by (unfold PyDict.keys; rewrite length_map; reflexivity).
  rewrite Hlen, Hkeys. cbn [PyDict.keys PyDict.empty map].
  split; [| split; [| split]].
  - apply fold_add_key_keeps_NoDup. constructor.
  - apply (fold_add_key_length urls []).
  - intros Hfull. apply (fold_add_key_full_length urls []); [constructor | exact Hfull].
  - intros Hnd. rewrite (fold_add_key_NoDup urls []) by exact Hnd. reflexivity.
Qed.

(** X4.  Checking a sequence that is two sequences joined does what
    checking the first and then the second does: the same events, and a
    dictionary in which an instance of the second sequence reads as in the
    second result and any other as in the first. *)
Theorem bulk_health_check_app (key : string) (urls1 urls2 : list string)
    (t : Trace) :
  exists d1 t1 d2 t2 d,
    bulk_health_check (__init__ key) urls1 t = (inr d1, t1) /\
    bulk_health_check (__init__ key) urls2 t1 = (inr d2, t2) /\
    bulk_health_check (__init__ key) (urls1 ++ urls2) t = (inr d, t2) /\
    (forall u, PyDict.get u d
               = match PyDict.get u d2 with
                 | Some r => Some r
                 | None => PyDict.get u d1
                 end).
Proof.
  destruct (bulk_loop health_notice (health_check (__init__ key))
              (table_request key HealthCheck) (health_check_run key)
              urls1 PyDict.empty t) as [d1 [Hrun1 _]].
  destruct (bulk_loop_from health_notice (health_check (__init__ key))
              (table_request key HealthCheck) (health_check_run key)
              urls2 d1 PyDict.empty d1
              (t ++ bulk_events health_notice (table_request key HealthCheck) urls1))
    as [d [d2 [Hd [Hd2 Hget]]]]; [reflexivity |].
  exists d1, (t ++ bulk_events health_notice (table_request key HealthCheck) urls1),
    d2, ((t ++ bulk_events health_notice (table_request key HealthCheck) urls1)
           ++ bulk_events health_notice (table_request key HealthCheck) urls2), d.
  unfold bulk_health_check. unfold health_notice in *.
  split; [exact Hrun1 | split; [exact Hd2 | split; [| exact Hget]]].
  rewrite for_each_app. unfold bind at 1. rewrite Hrun1. exact Hd.
Qed.

(** ** The command line, action by action *)

Lemma run_and_print (key : string) (op : Operation) (inst : string) (t : Trace) :
  (result <- run_operation (__init__ key) op inst ;;
   print (json_dumps (JObj result))) t
  = (inr tt,
     t ++ [EvRequest (table_request key op inst);
           EvPrint (json_dumps
                      (JObj (result_of (network t (table_request key op inst)))))]).
Proof.
  unfold bind. rewrite run_operation_spec. unfold print.
  rewrite <- app_assoc. reflexivity.
Qed.

Lemma json_load_file_cases (path : string) (t : Trace) :
  (exists config contents,
     read_file path = inr contents /\ json_loads contents = inr config /\
     json_load_file path t = (inr config, t)) \/
  (exists e,
     (read_file path = inl e \/
      exists contents, read_file path = inr contents /\ json_loads contents = inl e) /\
     json_load_file path t = (inl e, t)).
Proof.
  unfold json_load_file. destruct (read_file path) as [e | contents] eqn:Hread.
  - right. exists e. split; [left |]; reflexivity.
  - destruct (json_loads contents) as [e | config] eqn:Hdecode.
    + right. exists e. split; [right; exists contents; split |]; auto.
    + left. exists config, contents. repeat split; auto.
Qed.

(** X5.  With the action [ping], [health] or [info] the entry point never
    raises, whatever the network answers and whether or not a
    [--config-file] is given: it issues the one request of the operation
    and then calls [print] once, with the rendering
    [json.dumps (result, indent=2)] of what the operation returned. *)
Theorem main_query_actions (key inst : string) (config_file : option string)
    (t : Trace) :
  (exists r,
     fst (ping (__init__ key) inst t) = inr r /\
     main (mkArgs key inst ActPing config_file) t
     = (inr tt, t ++ [EvRequest (table_request key Ping inst);
                      EvPrint (json_dumps (JObj r))])) /\
  (exists r,
     fst (health_check (__init__ key) inst t) = inr r /\
     main (mkArgs key inst ActHealth config_file) t
     = (inr tt, t ++ [EvRequest (table_request key HealthCheck inst);
                      EvPrint (json_dumps (JObj r))])) /\
  (exists r,
     fst (system_info (__init__ key) inst t) = inr r /\
     main (mkArgs key inst ActInfo config_file) t
     = (inr tt, t ++ [EvRequest (table_request key SystemInfo inst);
                      EvPrint (json_dumps (JObj r))])).
Proof.
  split; [| split]; eexists; split.
  - exact (f_equal fst (run_operation_spec key Ping inst t)).
  - exact (run_and_print key Ping inst t).
  - exact (f_equal fst (run_operation_spec key HealthCheck inst t)).
  - exact (run_and_print key HealthCheck inst t).
  - exact (f_equal fst (run_operation_spec key SystemInfo inst t)).
  - exact (run_and_print key SystemInfo inst t).
Qed.

(** X6.  With the action [deploy] or [migrate] and a [--config-file] that
    reads and decodes, the entry point never raises: the decoded document
    is the [json=] argument of the one request it issues, and what it
    prints is the rendering of what the operation returned. *)
Theorem main_sends_config_file (key inst path contents : string) (config : JSON)
    (t : Trace) :
  path <> "" ->
  read_file path = inr contents ->
  json_loads contents = inr config ->
  (exists r,
     fst (deploy_integration (__init__ key) inst config t) = inr r /\
     main (mkArgs key inst ActDeploy (Some path)) t
     = (inr tt, t ++ [EvRequest (table_request key (DeployIntegration config) inst);
                      EvPrint (json_dumps (JObj r))])) /\
  (exists r,
     fst (execute_migration (__init__ key) inst config t) = inr r /\
     main (mkArgs key inst ActMigrate (Some path)) t
     = (inr tt, t ++ [EvRequest (table_request key (ExecuteMigration config) inst);
                      EvPrint (json_dumps (JObj r))])).
Proof.
  intros Hpath Hread Hdecode.
  destruct path as [| c path]; [contradiction |].
  assert (Hload : json_load_file (String c path) t = (inr config, t))
    by (unfold json_load_file; rewrite Hread, Hdecode; reflexivity).
  split; eexists; split.
  - exact (f_equal fst (run_operation_spec key (DeployIntegration config) inst t)).
  - cbn [main arg_action arg_config_file arg_admin_key arg_instance].
    unfold bind at 1. rewrite Hload.
    exact (run_and_print key (DeployIntegration config) inst t).
  - exact (f_equal fst (run_operation_spec key (ExecuteMigration config) inst t)).
  - cbn [main arg_action arg_config_file arg_admin_key arg_instance].
    unfold bind at 1. rewrite Hload.
    exact (run_and_print key (ExecuteMigration config) inst t).
Qed.

(** X7.  The only errors the entry point lets through are those of the
    configuration file.  When it raises, the action is [deploy] or
    [migrate], a [--config-file] that is not the empty string was given,
    the error is the one of reading that file or of decoding its contents,
    and nothing was printed or requested. *)
Theorem main_raises_only_for_config_file (args : Args) (t : Trace) (e : Exn) :
  fst (main args t) = inl e ->
  (arg_action args = ActDeploy \/ arg_action args = ActMigrate) /\
  (exists path,
     arg_config_file args = Some path /\ path <> "" /\
     (read_file path = inl e \/
      exists contents, read_file path = inr contents /\ json_loads contents = inl e)) /\
  snd (main args t) = t.
Proof.
  destruct args as [key inst action config_file].
  assert (Hop : forall op,
    fst ((result <- run_operation (__init__ key) op inst ;;
          print (json_dumps (JObj result))) t) <> inl e)
    by (intros op; rewrite run_and_print; discriminate).
  assert (Hfile : forall c path (k : JSON -> M unit),
    (forall config, fst (k config t) <> inl e) ->
    fst ((config <- json_load_file (String c path) ;; k config) t) = inl e ->
    (read_file (String c path) = inl e \/
     exists contents,
       read_file (String c path) = inr contents /\ json_loads contents = inl e) /\
    snd ((config <- json_load_file (String c path) ;; k config) t) = t).
  { intros c path k Hk. unfold bind.
    destruct (json_load_file_cases (String c path) t)
      as [[config [contents [_ [_ Hload]]]] | [e' [Hwhy Hload]]]; rewrite Hload.
    - intros Hraise. destruct (Hk config Hraise).
    - cbn [fst snd]. intros [= ->]. split; [exact Hwhy | reflexivity]. }
  cbn [arg_action arg_config_file].
  destruct action; cbn [main arg_action arg_config_file arg_admin_key arg_instance];
    intros Hraise.
  - destruct (Hop Ping Hraise).
  - destruct (Hop HealthCheck Hraise).
  - destruct (Hop SystemInfo Hraise).
  - destruct config_file as [[| c path] |]; try discriminate Hraise.
    apply Hfile in Hraise; [| intros config; apply (Hop (DeployIntegration config))].
    destruct Hraise as [Hwhy Hsame].
    split; [left; reflexivity | split; [| exact Hsame]].
    exists (String c path). repeat split; [discriminate | exact Hwhy].
  - destruct config_file as [[| c path] |]; try discriminate Hraise.
    apply Hfile in Hraise; [| intros config; apply (Hop (ExecuteMigration config))].
    destruct Hraise as [Hwhy Hsame].
    split; [right; reflexivity | split; [| exact Hsame]].
    exists (String c path). repeat split; [discriminate | exact Hwhy].
Qed.

(** X8.  Whatever its arguments, the entry point only adds to the trace,
    and what it adds holds at most one request, which goes to the given
    instance with the given credential; when it returns it has called
    [print] exactly once. *)
Theorem main_at_most_one_request (args : Args) (t : Trace) :
  exists added,
    snd (main args t) = t ++ added /\
    (http_calls added = [] \/
     exists op,
       http_calls added
       = [EvRequest (table_request (arg_admin_key args) op (arg_instance args))]) /\
    (fst (main args t) = inr tt ->
     length (filter (fun ev => negb (is_request ev)) added) = 1%nat).
Proof.
  destruct args as [key inst action config_file].
  assert (Hop : forall op,
    exists added,
      snd ((result <- run_operation (__init__ key) op inst ;;
            print (json_dumps (JObj result))) t) = t ++ added /\
      (http_calls added = [] \/
       exists op', http_calls added = [EvRequest (table_request key op' inst)]) /\
      (fst ((result <- run_operation (__init__ key) op inst ;;
             print (json_dumps (JObj result))) t) = inr tt ->
       length (filter (fun ev => negb (is_request ev)) added) = 1%nat)).
  { intros op. rewrite run_and_print. eexists. split; [reflexivity |].
    split; [right; exists op; reflexivity | reflexivity]. }
  assert (Husage : forall line,
    exists added,
      snd (print line t) = t ++ added /\
      (http_calls added = [] \/
       exists op', http_calls added = [EvRequest (table_request key op' inst)]) /\
      (fst (print line t) = inr tt ->
       length (filter (fun ev => negb (is_request ev)) added) = 1%nat)).
  { intros line. exists [EvPrint line]. repeat split. left. reflexivity. }
  cbn [arg_admin_key arg_instance].
  destruct action; cbn [main arg_action arg_config_file arg_admin_key arg_instance].
  - exact (Hop Ping).
  - exact (Hop HealthCheck).
  - exact (Hop SystemInfo).
  - destruct config_file as [[| c path] |]; try apply Husage.
    unfold bind at 1 3.
    destruct (json_load_file_cases (String c path) t)
      as [[config [contents [_ [_ Hload]]]] | [e' [_ Hload]]]; rewrite Hload.
    + exact (Hop (DeployIntegration config)).
    + exists []. rewrite app_nil_r. repeat split; [left; reflexivity | discriminate].
  - destruct config_file as [[| c path] |]; try apply Husage.
    unfold bind at 1 3.
    destruct (json_load_file_cases (String c path) t)
      as [[config [contents [_ [_ Hload]]]] | [e' [_ Hload]]]; rewrite Hload.
    + exact (Hop (ExecuteMigration config)).
    + exists []. rewrite app_nil_r. repeat split; [left; reflexivity | discriminate].
Qed.

End Coverage.

(** * The demonstration *)

(** ** Computations that only print *)

Lemma prints_only_ret {A : Type} (a : A) : prints_only (ret a).
Proof. intros t. exists []. simpl. rewrite app_nil_r. reflexivity. Qed.

Lemma prints_only_raise {A : Type} (e : Exn) : prints_only (@raise A e).
Proof. intros t. exists []. simpl. rewrite app_nil_r. reflexivity. Qed.

Lemma prints_only_print (line : string) : prints_only (print line).
Proof. intros t. exists [line]. reflexivity. Qed.

Lemma prints_only_bind {A B : Type} (m : M A) (k : A -> M B) :
  prints_only m -> (forall a, prints_only (k a)) -> prints_only (bind m k).
Proof.
  intros Hm Hk t. destruct (Hm t) as [l1 H1]. unfold bind.
  destruct (m t) as [[e | a] t']; cbn [snd] in H1; subst t'.
  - exists l1. reflexivity.
  - destruct (Hk a (t ++ map EvPrint l1)) as [l2 H2].
    exists (l1 ++ l2). rewrite H2, map_app, app_assoc. reflexivity.
Qed.

Lemma prints_only_for_each {A S : Type} (xs : list A) (body : A -> S -> M S) :
  (forall x s, prints_only (body x s)) ->
  forall s, prints_only (for_each xs body s).
Proof.
  intros Hbody. induction xs as [| x xs IH]; intros s; cbn [for_each].
  - apply prints_only_ret.
  - apply prints_only_bind; [apply Hbody | exact IH].
Qed.

Lemma prints_only_dict_getitem (d : PyDict.t JSON) (key : string) :
  prints_only (dict_getitem d key).
Proof.
  unfold dict_getitem. destruct (PyDict.get key d);
    [apply prints_only_ret | apply prints_only_raise].
Qed.

Lemma prints_only_getitem (x : JSON) (key : string) : prints_only (getitem x key).
Proof.
  destruct x; cbn [getitem];
    first [apply prints_only_dict_getitem | apply prints_only_raise].
Qed.

Lemma prints_only_iter (x : JSON) : prints_only (iter x).
Proof.
  destruct x; cbn [iter]; first [apply prints_only_ret | apply prints_only_raise].
Qed.

Lemma prints_only_len (x : JSON) : prints_only (len x).
Proof.
  destruct x; cbn [len]; first [apply prints_only_ret | apply prints_only_raise].
Qed.

Ltac solve_prints_only :=
  repeat first
    [ apply prints_only_print
    | apply prints_only_ret
    | apply prints_only_dict_getitem
    | apply prints_only_getitem
    | apply prints_only_iter
    | apply prints_only_len
    | apply prints_only_for_each; intros
    | apply prints_only_bind; [| intros]
    | match goal with
      | |- prints_only (if ?b then _ else _) => destruct b
      end ].

Lemma prints_only_report_health {host : Host} (instance : string) (result : Result) :
  prints_only (report_health instance result).
Proof. unfold report_health. solve_prints_only. Qed.

Lemma prints_only_report_deployment {host : Host} (instance : string)
    (result : Result) :
  prints_only (report_deployment instance result).
Proof. unfold report_deployment. solve_prints_only. Qed.

Lemma prints_only_report_migration {host : Host} (result : Result) :
  prints_only (report_migration result).
Proof. unfold report_migration. solve_prints_only. Qed.

(** ** Requests known in advance *)

Lemma issues_prints_only {A : Type} (m : M A) : prints_only m -> issues m [[]] [].
Proof.
  intros Hm t. destruct (Hm t) as [lines Hlines].
  exists (map EvPrint lines). split; [exact Hlines |].
  rewrite http_calls_prints. destruct (fst (m t)); [left |]; reflexivity.
Qed.

Lemma issues_bind {A B : Type} (m : M A) (k : A -> M B)
    (p1 p2 : list (list Event)) (f1 f2 : list Event) :
  issues m p1 f1 -> (forall a, issues (k a) p2 f2) ->
  issues (bind m k) (p1 ++ map (app f1) p2) (f1 ++ f2).
Proof.
  intros Hm Hk t. destruct (Hm t) as [a1 [H1 Hc1]]. unfold bind.
  destruct (m t) as [[e | a] t']; cbn [fst snd] in *; subst t'.
  - exists a1. split; [reflexivity |]. apply in_or_app. left. exact Hc1.
  - destruct (Hk a (t ++ a1)) as [a2 [H2 Hc2]].
    exists (a1 ++ a2). rewrite H2, app_assoc. split; [reflexivity |].
    rewrite http_calls_app, Hc1.
    destruct (fst (k a (t ++ a1))).
    + apply in_or_app. right. apply in_map. exact Hc2.
    + rewrite Hc2. reflexivity.
Qed.

Lemma issues_weaken {A : Type} (m : M A) (p p' : list (list Event))
    (f : list Event) :
  issues m p f -> incl p p' -> issues m p' f.
Proof.
  intros Hm Hincl t. destruct (Hm t) as [added [Hadd Hcalls]].
  exists added. split; [exact Hadd |].
  destruct (fst (m t)); [apply Hincl |]; exact Hcalls.
Qed.

Lemma issues_print (line : string) : issues (print line) [] [].
Proof. intros t. exists [EvPrint line]. split; reflexivity. Qed.

Lemma bind_returns {A B : Type} (m : M A) (k : A -> M B) (t t' : Trace) (a : A) :
  m t = (inr a, t') -> bind m k t = k a t'.
Proof. intros Hm. unfold bind. rewrite Hm. reflexivity. Qed.

Lemma bind_raises {A B : Type} (m : M A) (k : A -> M B) (t t' : Trace) (e : Exn) :
  m t = (inl e, t') -> bind m k t = (inl e, t').
Proof. intros Hm. unfold bind. rewrite Hm. reflexivity. Qed.

Lemma bind_print {B : Type} (line : string) (k : unit -> M B) (t : Trace) :
  bind (print line) k t = k tt (t ++ [EvPrint line]).
Proof. reflexivity. Qed.

(** ** Subscripts *)

Lemma lookup_path_cons (key : string) (rest : list string) (x : JSON) :
  lookup_path (key :: rest) x
  = match lookup_path [key] x with
    | Some value => lookup_path rest value
    | None => None
    end.
Proof.
  cbn [lookup_path]. destruct x; try reflexivity.
  destruct (PyDict.get key members); reflexivity.
Qed.

Lemma getitem_cases (x : JSON) (key : string) (t : Trace) :
  match lookup_path [key] x with
  | Some value => getitem x key t = (inr value, t)
  | None => exists e, getitem x key t = (inl e, t) /\ lookup_error e
  end.
Proof.
  destruct x; cbn [lookup_path getitem];
    try (eexists; split; [reflexivity | right; reflexivity]).
  unfold dict_getitem. destruct (PyDict.get key members); [reflexivity |].
  eexists. split; [reflexivity | left; reflexivity].
Qed.

Lemma getitem_path2 {A : Type} (x : JSON) (k1 k2 : string) (k : JSON -> M A)
    (t : Trace) :
  match lookup_path [k1; k2] x with
  | Some value =>
      (d <- getitem x k1 ;; v <- getitem d k2 ;; k v) t = k value t
  | None =>
      exists e,
        (d <- getitem x k1 ;; v <- getitem d k2 ;; k v) t = (inl e, t) /\
        lookup_error e
  end.
Proof.
  rewrite lookup_path_cons. pose proof (getitem_cases x k1 t) as H1.
  destruct (lookup_path [k1] x) as [d |].
  - rewrite (bind_returns _ _ _ _ _ H1).
    pose proof (getitem_cases d k2 t) as H2.
    destruct (lookup_path [k2] d) as [v |].
    + apply bind_returns. exact H2.
    + destruct H2 as [e [H2 He]]. exists e. split; [| exact He].
      apply bind_raises. exact H2.
  - destruct H1 as [e [H1 He]]. exists e. split; [| exact He].
    apply bind_raises. exact H1.
Qed.

Lemma getitem_path3 {A : Type} (x : JSON) (k1 k2 k3 : string) (k : JSON -> M A)
    (t : Trace) :
  match lookup_path [k1; k2; k3] x with
  | Some value =>
      (d <- getitem x k1 ;; d <- getitem d k2 ;; v <- getitem d k3 ;; k v) t
      = k value t
  | None =>
      exists e,
        (d <- getitem x k1 ;; d <- getitem d k2 ;; v <- getitem d k3 ;; k v) t
        = (inl e, t) /\
        lookup_error e
  end.
Proof.
  rewrite lookup_path_cons. pose proof (getitem_cases x k1 t) as H1.
  destruct (lookup_path [k1] x) as [d |].
  - rewrite (bind_returns _ _ _ _ _ H1).
    exact (getitem_path2 d k2 k3 k t).
  - destruct H1 as [e [H1 He]]. exists e. split; [| exact He].
    apply bind_raises. exact H1.
Qed.

(** ** The three reports *)

Section Reports.

Context {host : Host}.

Lemma report_health_success (instance : string) (body : JSON) (t : Trace) :
  report_health instance (Success body) t
  = (d <- getitem body "data" ;;
     d <- getitem d "summary" ;;
     system_status <- getitem d "systemStatus" ;;
     d <- getitem body "data" ;;
     d <- getitem d "summary" ;;
     client_count <- getitem d "totalClients" ;;
     print (instance ^ ": " ^ str system_status ^ " (" ^ str client_count
              ^ " clients)")) t.
Proof. reflexivity. Qed.

Lemma report_health_missing (instance : string) (body : JSON) (t : Trace) :
  lookup_path ["data"; "summary"; "systemStatus"] body = None ->
  exists e,
    report_health instance (Success body) t = (inl e, t) /\ lookup_error e.
Proof.
  intros Hs. rewrite report_health_success.
  pose proof (getitem_path3 body "data" "summary" "systemStatus"
                (fun system_status =>
                   d <- getitem body "data" ;;
                   d <- getitem d "summary" ;;
                   client_count <- getitem d "totalClients" ;;
                   print (instance ^ ": " ^ str system_status ^ " ("
                            ^ str client_count ^ " clients)")) t) as H1.
  rewrite Hs in H1. exact H1.
Qed.

(** X9.  The line of the health report.  For a failed check it is the
    instance followed by [ERROR] and the message.  For a successful one
    whose body has [data.summary.systemStatus] and
    [data.summary.totalClients] it shows the two; when either is missing the
    report raises a [KeyError] or a [TypeError] and prints nothing. *)
Theorem report_health_outcome (instance : string) (t : Trace) :
  (forall msg,
     report_health instance (Failure msg) t
     = (inr tt, t ++ [EvPrint (instance ^ ": ERROR - " ^ msg)])) /\
  (forall body system_status client_count,
     lookup_path ["data"; "summary"; "systemStatus"] body = Some system_status ->
     lookup_path ["data"; "summary"; "totalClients"] body = Some client_count ->
     report_health instance (Success body) t
     = (inr tt,
        t ++ [EvPrint (instance ^ ": " ^ str system_status ^ " ("
                         ^ str client_count ^ " clients)")])) /\
  (forall body,
     lookup_path ["data"; "summary"; "systemStatus"] body = None \/
     lookup_path ["data"; "summary"; "totalClients"] body = None ->
     exists e,
       report_health instance (Success body) t = (inl e, t) /\ lookup_error e).
Proof.
  split; [reflexivity | split].
  - intros body s c Hs Hc. rewrite report_health_success.
    pose proof (getitem_path3 body "data" "summary" "systemStatus"
                  (fun system_status =>
                     d <- getitem body "data" ;;
                     d <- getitem d "summary" ;;
                     client_count <- getitem d "totalClients" ;;
                     print (instance ^ ": " ^ str system_status ^ " ("
                              ^ str client_count ^ " clients)")) t) as H1.
    rewrite Hs in H1. rewrite H1.
    pose proof (getitem_path3 body "data" "summary" "totalClients"
                  (fun client_count =>
                     print (instance ^ ": " ^ str s ^ " ("
                              ^ str client_count ^ " clients)")) t) as H2.
    rewrite Hc in H2. rewrite H2. reflexivity.
  - intros body Hmissing. rewrite report_health_success.
    pose proof (getitem_path3 body "data" "summary" "systemStatus"
                  (fun system_status =>
                     d <- getitem body "data" ;;
                     d <- getitem d "summary" ;;
                     client_count <- getitem d "totalClients" ;;
                     print (instance ^ ": " ^ str system_status ^ " ("
                              ^ str client_count ^ " clients)")) t) as H1.
    destruct (lookup_path ["data"; "summary"; "systemStatus"] body) as [s |];
      [| exact H1].
    destruct Hmissing as [Hs | Hc]; [discriminate |].
    rewrite H1.
    pose proof (getitem_path3 body "data" "summary" "totalClients"
                  (fun client_count =>
                     print (instance ^ ": " ^ str s ^ " ("
                              ^ str client_count ^ " clients)")) t) as H2.
    rewrite Hc in H2. exact H2.
Qed.

(** The comprehension, item by item. *)
Lemma comprehension_keeps_successes (items : list JSON) (t : Trace) :
  Forall has_status items ->
  forall kept,
    for_each items
      (fun r kept =>
         status <- getitem r "status" ;;
         ret (if eq_str status "success" then kept ++ [r] else kept))
      kept t
    = (inr (kept ++ filter succeeded items), t).
Proof.
  induction 1 as [| r items [s Hs] _ IH]; intros kept; cbn [for_each filter].
  - rewrite app_nil_r. reflexivity.
  - pose proof (getitem_cases r "status" t) as Hget.
    unfold status_of in Hs. rewrite Hs in Hget.
    unfold bind at 1. unfold bind at 1. rewrite Hget. unfold ret at 1.
    rewrite IH. unfold succeeded, status_of. rewrite Hs.
    destruct (eq_str s "success"); [rewrite <- app_assoc |]; reflexivity.
Qed.

Lemma comprehension_raises (items : list JSON) (t : Trace) :
  Exists (fun r => status_of r = None) items ->
  forall kept,
  exists e,
    for_each items
      (fun r kept =>
         status <- getitem r "status" ;;
         ret (if eq_str status "success" then kept ++ [r] else kept))
      kept t
    = (inl e, t) /\ lookup_error e.
Proof.
  induction items as [| r items IH]; intros Hex kept.
  - inversion Hex.
  - cbn [for_each]. pose proof (getitem_cases r "status" t) as Hget.
    fold (status_of r) in Hget.
    destruct (status_of r) as [s |] eqn:Hs.
    + unfold bind at 1. unfold bind at 1. rewrite Hget. unfold ret at 1.
      apply IH. inversion Hex as [? ? Hnone | ? ? Hrest]; subst;
        [congruence | exact Hrest].
    + destruct Hget as [e [Hget He]]. exists e. split; [| exact He].
      unfold bind at 1. unfold bind at 1. rewrite Hget. reflexivity.
Qed.

Lemma count_and_print (body : JSON) (line : Z -> Z -> string) (items : list JSON)
    (t : Trace) :
  lookup_path ["data"; "results"] body = Some (JArr items) ->
  (d <- getitem body "data" ;;
   results <- getitem d "results" ;;
   items <- iter results ;;
   kept <- for_each items
             (fun r kept =>
                status <- getitem r "status" ;;
                ret (if eq_str status "success" then kept ++ [r] else kept))
             [] ;;
   d <- getitem body "data" ;;
   results <- getitem d "results" ;;
   total_count <- len results ;;
   print (line (Z.of_nat (length kept)) total_count)) t
  = (kept <- for_each items
               (fun r kept =>
                  status <- getitem r "status" ;;
                  ret (if eq_str status "success" then kept ++ [r] else kept))
               [] ;;
     print (line (Z.of_nat (length kept)) (Z.of_nat (length items)))) t.
Proof.
  intros Hpath.
  pose proof (getitem_path2 body "data" "results"
                (fun results =>
                   items <- iter results ;;
                   kept <- for_each items
                             (fun r kept =>
                                status <- getitem r "status" ;;
                                ret (if eq_str status "success"
                                     then kept ++ [r] else kept))
                             [] ;;
                   d <- getitem body "data" ;;
                   results <- getitem d "results" ;;
                   total_count <- len results ;;
                   print (line (Z.of_nat (length kept)) total_count)) t) as H1.
  rewrite Hpath in H1. rewrite H1. cbn [iter].
  rewrite (bind_returns _ _ t t items eq_refl).
  destruct (for_each items
              (fun r kept =>
                 status <- getitem r "status" ;;
                 ret (if eq_str status "success" then kept ++ [r] else kept))
              [] t) as [[e | kept] t'] eqn:Hloop.
  { rewrite !(bind_raises _ _ _ _ _ Hloop). reflexivity. }
  rewrite !(bind_returns _ _ _ _ _ Hloop).
  pose proof (getitem_path2 body "data" "results"
                (fun results =>
                   total_count <- len results ;;
                   print (line (Z.of_nat (length kept)) total_count)) t') as H2.
  rewrite Hpath in H2. rewrite H2. reflexivity.
Qed.

(** X10.  The success ratio.  When the body of a successful deployment or
    migration has a list under [data.results] and every item of the list has
    a [status], the report prints how many items have the status [success]
    and how many items there are. *)
Theorem reports_count_successes (instance : string) (body : JSON)
    (items : list JSON) (t : Trace) :
  lookup_path ["data"; "results"] body = Some (JArr items) ->
  Forall has_status items ->
  report_deployment instance (Success body) t
  = (inr tt,
     t ++ [EvPrint (instance ^ ": "
                      ^ str_of_int (Z.of_nat (length (filter succeeded items)))
                      ^ "/" ^ str_of_int (Z.of_nat (length items))
                      ^ " clients updated")]) /\
  report_migration (Success body) t
  = (inr tt,
     t ++ [EvPrint ("Migration executed: "
                      ^ str_of_int (Z.of_nat (length (filter succeeded items)))
                      ^ "/" ^ str_of_int (Z.of_nat (length items))
                      ^ " databases updated")]).
Proof.
  intros Hpath Hall. split.
  - etransitivity;
      [exact (count_and_print body
                (fun k n => instance ^ ": " ^ str_of_int k ^ "/" ^ str_of_int n
                              ^ " clients updated") items t Hpath) |].
    rewrite (bind_returns _ _ _ _ _ (comprehension_keeps_successes items t Hall [])).
    reflexivity.
  - etransitivity;
      [exact (count_and_print body
                (fun k n => "Migration executed: " ^ str_of_int k ^ "/"
                              ^ str_of_int n ^ " databases updated")
                items t Hpath) |].
    rewrite (bind_returns _ _ _ _ _ (comprehension_keeps_successes items t Hall [])).
    reflexivity.
Qed.

(** X11.  When the list under [data.results] has an item without a
    [status] -- an object that lacks the key, or a value that is no
    object -- the report of a successful deployment or migration raises a
    [KeyError] or a [TypeError] and prints nothing. *)
Theorem reports_need_statuses (instance : string) (body : JSON)
    (items : list JSON) (t : Trace) :
  lookup_path ["data"; "results"] body = Some (JArr items) ->
  Exists (fun r => status_of r = None) items ->
  (exists e,
     report_deployment instance (Success body) t = (inl e, t) /\ lookup_error e) /\
  (exists e,
     report_migration (Success body) t = (inl e, t) /\ lookup_error e).
Proof.
  intros Hpath Hex.
  destruct (comprehension_raises items t Hex []) as [e [Hloop He]].
  split; exists e; (split; [| exact He]).
  - etransitivity;
      [exact (count_and_print body
                (fun k n => instance ^ ": " ^ str_of_int k ^ "/" ^ str_of_int n
                              ^ " clients updated") items t Hpath) |].
    apply bind_raises. exact Hloop.
  - etransitivity;
      [exact (count_and_print body
                (fun k n => "Migration executed: " ^ str_of_int k ^ "/"
                              ^ str_of_int n ^ " databases updated")
                items t Hpath) |].
    apply bind_raises. exact Hloop.
Qed.

End Reports.

(** ** The demonstration as a whole *)

Section Demonstration.

Context {env : Env} {host : Host}.

Lemma issues_bulk_health_check :
  issues (bulk_health_check (__init__ demo_key) customer_instances)
    [] demo_health_calls.
Proof.
  intros t.
  destruct (bulk_loop health_notice (health_check (__init__ demo_key))
              (table_request demo_key HealthCheck) (health_check_run demo_key)
              customer_instances PyDict.empty t) as [d [Hrun _]].
  exists (bulk_events health_notice (table_request demo_key HealthCheck)
            customer_instances).
  unfold bulk_health_check. unfold health_notice in Hrun. rewrite Hrun.
  split; [reflexivity |]. apply http_calls_bulk_events.
Qed.

Lemma issues_bulk_deploy_integration :
  issues (bulk_deploy_integration (__init__ demo_key) customer_instances
            integration_config)
    [] demo_deploy_calls.
Proof.
  intros t.
  destruct (bulk_loop deploy_notice
              (fun u => deploy_integration (__init__ demo_key) u integration_config)
              (table_request demo_key (DeployIntegration integration_config))
              (deploy_integration_run demo_key integration_config)
              customer_instances PyDict.empty t) as [d [Hrun _]].
  exists (bulk_events deploy_notice
            (table_request demo_key (DeployIntegration integration_config))
            customer_instances).
  unfold bulk_deploy_integration. unfold deploy_notice in Hrun. rewrite Hrun.
  split; [reflexivity |]. apply http_calls_bulk_events.
Qed.

Lemma issues_execute_migration :
  issues (execute_migration (__init__ demo_key)
            "https://acme-corp.msplatform.com" migration_config)
    [] demo_migrate_calls.
Proof.
  intros t.
  exists [EvRequest (table_request demo_key (ExecuteMigration migration_config)
                       "https://acme-corp.msplatform.com")].
  change (execute_migration (__init__ demo_key)
            "https://acme-corp.msplatform.com" migration_config t)
    with (run_operation (__init__ demo_key) (ExecuteMigration migration_config)
            "https://acme-corp.msplatform.com" t).
  rewrite run_operation_spec. split; reflexivity.
Qed.

Lemma demo_scenarios_issues :
  issues demo_scenarios
    [demo_health_calls;
     demo_health_calls ++ demo_deploy_calls;
     demo_health_calls ++ demo_deploy_calls ++ demo_migrate_calls]
    (demo_health_calls ++ demo_deploy_calls ++ demo_migrate_calls).
Proof.
  eassert (Hchain : issues demo_scenarios _ _).
  { unfold demo_scenarios. fold demo_key.
    apply issues_bind; [apply issues_print | intros _].
    apply issues_bind; [apply issues_bulk_health_check | intros health_results].
    apply issues_bind;
      [apply issues_prints_only, prints_only_for_each; intros;
       apply prints_only_report_health | intros _].
    apply issues_bind; [apply issues_print | intros _].
    apply issues_bind;
      [apply issues_bulk_deploy_integration | intros deploy_results].
    apply issues_bind;
      [apply issues_prints_only, prints_only_for_each; intros;
       apply prints_only_report_deployment | intros _].
    apply issues_bind; [apply issues_print | intros _].
    apply issues_bind; [apply issues_execute_migration | intros result].
    apply issues_prints_only, prints_only_report_migration. }
  cbn [app map] in Hchain. rewrite ?app_nil_r in Hchain. exact Hchain.
Qed.

(** X12.  The requests of the demonstration are fixed in advance, whatever
    the instances answer: the three health checks, then the three
    deployments, then the migration on the first instance, every one with
    the credential of [ADMIN_API_KEY] or the placeholder.  A run that
    returns has issued all seven; a run that raises stopped after the
    three, the six or the seven, never in between. *)
Theorem demo_requests_by_phase (t : Trace) :
  exists added,
    snd (demo_scenarios t) = t ++ added /\
    (fst (demo_scenarios t) = inr tt ->
     http_calls added
     = demo_health_calls ++ demo_deploy_calls ++ demo_migrate_calls) /\
    (forall e,
       fst (demo_scenarios t) = inl e ->
       http_calls added = demo_health_calls \/
       http_calls added = demo_health_calls ++ demo_deploy_calls \/
       http_calls added
       = demo_health_calls ++ demo_deploy_calls ++ demo_migrate_calls).
Proof.
  destruct (demo_scenarios_issues t) as [added [Hadd Hcalls]].
  exists added. split; [exact Hadd | split].
  - intros Hok. rewrite Hok in Hcalls. exact Hcalls.
  - intros e He. rewrite He in Hcalls. cbn [In] in Hcalls. intuition auto.
Qed.

Lemma failures_are_reported (report : string -> Result -> M unit)
    (d : PyDict.t Result) :
  (forall instance msg t, exists t', report instance (Failure msg) t = (inr tt, t')) ->
  Forall (fun r => exists msg, r = Failure msg) (PyDict.values d) ->
  forall t,
  exists t',
    for_each d (fun item _ => report (fst item) (snd item)) tt t = (inr tt, t').
Proof.
  intros Hreport. induction d as [| [instance r] d IH]; intros Hall t.
  - exists t. reflexivity.
  - cbn [PyDict.values map snd] in Hall.
    inversion Hall as [| ? ? [msg Hr] Hrest]; subst.
    cbn [for_each fst snd].
    destruct (Hreport instance msg t) as [t1 H1].
    rewrite (bind_returns _ _ _ _ _ H1). apply IH. exact Hrest.
Qed.

(** X13.  When no request gets through -- every one meets a transport
    error, an error status or an undecodable body -- the demonstration
    still runs to its end: it returns, having issued all seven requests. *)
Theorem demo_survives_outage (t : Trace) :
  (forall t' q, exists msg, failed_request (network t' q) msg) ->
  fst (demo_scenarios t) = inr tt /\
  http_calls (snd (demo_scenarios t))
  = http_calls t ++ demo_health_calls ++ demo_deploy_calls ++ demo_migrate_calls.
Proof.
  intros Hdown.
  assert (Hfail : forall op u t' r,
            fst (run_operation (__init__ demo_key) op u t') = inr r ->
            exists msg, r = Failure msg).
  { intros op u t' r. rewrite run_operation_spec. cbn [fst]. intros [= <-].
    destruct (Hdown t' (table_request demo_key op u)) as [msg Hmsg].
    exists msg. apply result_of_failed. exact Hmsg. }
  assert (Hok : fst (demo_scenarios t) = inr tt).
  { unfold demo_scenarios. fold demo_key.
    rewrite bind_print.
    destruct (bulk_loop health_notice (health_check (__init__ demo_key))
                (table_request demo_key HealthCheck) (health_check_run demo_key)
                customer_instances PyDict.empty
                (t ++ [EvPrint "=== Multi-Instance Health Check ==="]))
      as [d1 [Hrun1 [_ [_ [_ Hall1]]]]].
    unfold bulk_health_check. unfold health_notice in Hrun1.
    rewrite (bind_returns _ _ _ _ _ Hrun1).
    destruct (failures_are_reported report_health d1) with
      (t := (t ++ [EvPrint "=== Multi-Instance Health Check ==="])
              ++ bulk_events health_notice (table_request demo_key HealthCheck)
                   customer_instances) as [t2 Hloop1].
    { intros instance msg t'. eexists. reflexivity. }
    { apply Hall1; [| constructor].
      intros u t' r. exact (Hfail HealthCheck u t' r). }
    unfold health_notice in Hloop1. rewrite (bind_returns _ _ _ _ _ Hloop1).
    rewrite bind_print.
    destruct (bulk_loop deploy_notice
                (fun u => deploy_integration (__init__ demo_key) u
                            integration_config)
                (table_request demo_key (DeployIntegration integration_config))
                (deploy_integration_run demo_key integration_config)
                customer_instances PyDict.empty
                (t2 ++ [EvPrint (nl ^ "=== Integration Deployment Example ===")]))
      as [d2 [Hrun2 [_ [_ [_ Hall2]]]]].
    unfold bulk_deploy_integration. unfold deploy_notice in Hrun2.
    rewrite (bind_returns _ _ _ _ _ Hrun2).
    destruct (failures_are_reported report_deployment d2) with
      (t := (t2 ++ [EvPrint (nl ^ "=== Integration Deployment Example ===")])
              ++ bulk_events deploy_notice
                   (table_request demo_key (DeployIntegration integration_config))
                   customer_instances) as [t3 Hloop2].
    { intros instance msg t'. eexists. reflexivity. }
    { apply Hall2; [| constructor].
      intros u t' r. exact (Hfail (DeployIntegration integration_config) u t' r). }
    unfold deploy_notice in Hloop2. rewrite (bind_returns _ _ _ _ _ Hloop2).
    rewrite bind_print.
    pose proof (run_operation_spec demo_key (ExecuteMigration migration_config)
                  "https://acme-corp.msplatform.com"
                  (t3 ++ [EvPrint (nl ^ "=== Migration Example ===")])) as Hrun3.
    cbn [run_operation] in Hrun3. rewrite (bind_returns _ _ _ _ _ Hrun3).
    destruct (Hdown (t3 ++ [EvPrint (nl ^ "=== Migration Example ===")])
                (table_request demo_key (ExecuteMigration migration_config)
                   "https://acme-corp.msplatform.com")) as [msg Hmsg].
    rewrite (result_of_failed _ _ Hmsg). reflexivity. }
  split; [exact Hok |].
  destruct (demo_scenarios_issues t) as [added [Hadd Hcalls]].
  rewrite Hok in Hcalls. rewrite Hadd, http_calls_app, Hcalls. reflexivity.
Qed.

(** X14.  When the first instance answers its health check with a body
    that decodes but has no [data.summary.systemStatus], the demonstration
    raises a [KeyError] or a [TypeError] from the health report: the three
    instances have been checked, no line of the report has been printed,
    and no deployment and no migration is requested. *)
Theorem demo_stops_at_unexpected_health_body (t : Trace) (resp : Response)
    (body : JSON) :
  network
    (t ++ [EvPrint "=== Multi-Instance Health Check ===";
           EvPrint "Checking health for https://acme-corp.msplatform.com..."])
    (table_request demo_key HealthCheck "https://acme-corp.msplatform.com")
  = inr resp ->
  ~ status_4xx_5xx resp ->
  json_loads (text resp) = inr body ->
  lookup_path ["data"; "summary"; "systemStatus"] body = None ->
  exists e,
    demo_scenarios t
    = (inl e,
       t ++ EvPrint "=== Multi-Instance Health Check ==="
         :: bulk_events health_notice (table_request demo_key HealthCheck)
              customer_instances) /\
    lookup_error e.
Proof.
  intros Hnet Hstatus Hbody Hpath.
  unfold demo_scenarios. fold demo_key.
  rewrite bind_print.
  destruct (bulk_loop health_notice (health_check (__init__ demo_key))
              (table_request demo_key HealthCheck) (health_check_run demo_key)
              customer_instances PyDict.empty
              (t ++ [EvPrint "=== Multi-Instance Health Check ==="]))
    as [d1 [Hrun1 [Hkeys1 [_ [Hidx1 _]]]]].
  unfold bulk_health_check. unfold health_notice in Hrun1.
  rewrite (bind_returns _ _ _ _ _ Hrun1).
  destruct (Hidx1 0%nat "https://acme-corp.msplatform.com" eq_refl)
    as [r [Hr Hget]].
  { cbn. intros [H | [H | []]]; discriminate. }
  cbn [firstn bulk_events flat_map app] in Hr. rewrite <- app_assoc in Hr.
  change (health_check (__init__ demo_key) "https://acme-corp.msplatform.com")
    with (run_operation (__init__ demo_key) HealthCheck
            "https://acme-corp.msplatform.com") in Hr.
  rewrite run_operation_spec in Hr. cbn [fst app] in Hr.
  unfold health_notice in Hr. cbn [String.append] in Hr.
  rewrite Hnet in Hr. unfold result_of in Hr.
  rewrite (http_error_msg_passed _ Hstatus), Hbody in Hr.
  cbn [String.eqb] in Hr. injection Hr as <-.
  change (fold_left add_key customer_instances (PyDict.keys PyDict.empty))
    with customer_instances in Hkeys1.
  destruct d1 as [| [k1 v1] d1]; [discriminate |].
  injection Hkeys1 as -> _.
  cbn [PyDict.get] in Hget. rewrite String.eqb_refl in Hget. injection Hget as ->.
  destruct (report_health_missing "https://acme-corp.msplatform.com" body
              ((t ++ [EvPrint "=== Multi-Instance Health Check ==="])
                 ++ bulk_events health_notice (table_request demo_key HealthCheck)
                      customer_instances) Hpath) as [e [Hreport He]].
  exists e. split; [| exact He].
  cbn [for_each fst snd].
  unfold health_notice in Hreport.
  rewrite (bind_raises _ _ _ _ _ (bind_raises _ _ _ _ _ Hreport)).
  rewrite <- app_assoc. reflexivity.
Qed.

End Demonstration.

(** * The entry point and the demonstration on concrete inputs *)

(** A configuration file holding an empty object: it is what the deployment
    sends. *)
Lemma main_sends_config_file_witness :
  main (env := sample_env)
    (mkArgs "s3cret" "https://a.example.com" ActDeploy (Some "config.json")) []
  = (inr tt,
     [EvRequest (table_request "s3cret" (DeployIntegration (JObj []))
                   "https://a.example.com");
      EvPrint "{ status: success }"]).
Proof.
  destruct (proj1 (main_sends_config_file (env := sample_env)
                     "s3cret" "https://a.example.com" "config.json" "{}"
                     (JObj []) [] ltac:(discriminate) eq_refl eq_refl))
    as [r [Hr Hmain]].
  vm_compute in Hr. injection Hr as <-. exact Hmain.
Defined.

(** A configuration file that is not JSON: the error of the decoder is what
    comes out, and the trace stays empty. *)
Lemma main_raises_only_for_config_file_witness :
  (exists path,
     Some "broken.json" = Some path /\ path <> "" /\
     (read_file (Env := sample_env) path
      = inl (mkExn "JSONDecodeError" "Expecting value: line 1 column 1 (char 0)") \/
      exists contents,
        read_file (Env := sample_env) path = inr contents /\
        json_loads (Env := sample_env) contents
        = inl (mkExn "JSONDecodeError"
                 "Expecting value: line 1 column 1 (char 0)"))) /\
  snd (main (env := sample_env)
         (mkArgs "s3cret" "https://a.example.com" ActMigrate (Some "broken.json"))
         [])
  = [].
Proof.
  exact (proj2 (main_raises_only_for_config_file (env := sample_env)
                  (mkArgs "s3cret" "https://a.example.com" ActMigrate
                     (Some "broken.json"))
                  []
                  (mkExn "JSONDecodeError"
                     "Expecting value: line 1 column 1 (char 0)")
                  eq_refl)).
Defined.

(** A healthy instance that reports its clients as the float 100.0: the
    line shows the float as [repr] does. *)
Lemma report_health_outcome_witness :
  report_health (host := sample_host) "https://a.example.com"
    (Success
       (JObj [("data",
               JObj [("summary",
                      JObj [("systemStatus", JStr "healthy");
                            ("totalClients",
                             JFloat (S754_finite false 25 2))])])]))
    []
  = (inr tt, [EvPrint "https://a.example.com: healthy (100.0 clients)"]).
Proof.
  apply (proj1 (proj2 (report_health_outcome (host := sample_host)
                         "https://a.example.com" []))
           (JObj [("data",
                   JObj [("summary",
                          JObj [("systemStatus", JStr "healthy");
                                ("totalClients",
                                 JFloat (S754_finite false 25 2))])])])
           (JStr "healthy") (JFloat (S754_finite false 25 2)));
    reflexivity.
Defined.

(** Three clients, two of them updated. *)
Lemma reports_count_successes_witness :
  report_deployment (host := sample_host) "https://acme-corp.msplatform.com"
    (Success
       (JObj [("success", JBool true);
              ("data",
               JObj [("results",
                      JArr [JObj [("client", JNum 1); ("status", JStr "success")];
                            JObj [("client", JNum 2); ("status", JStr "failed")];
                            JObj [("client", JNum 3); ("status", JStr "success")]])])]))
    []
  = (inr tt, [EvPrint "https://acme-corp.msplatform.com: 2/3 clients updated"]).
Proof.
  apply (reports_count_successes (host := sample_host)
           "https://acme-corp.msplatform.com"
           (JObj [("success", JBool true);
                  ("data",
                   JObj [("results",
                          JArr [JObj [("client", JNum 1); ("status", JStr "success")];
                                JObj [("client", JNum 2); ("status", JStr "failed")];
                                JObj [("client", JNum 3); ("status", JStr "success")]])])])
           [JObj [("client", JNum 1); ("status", JStr "success")];
            JObj [("client", JNum 2); ("status", JStr "failed")];
            JObj [("client", JNum 3); ("status", JStr "success")]]
           []).
  - reflexivity.
  - repeat constructor; eexists; reflexivity.
Defined.

(** A list whose second item is a string: the report raises. *)
Lemma reports_need_statuses_witness :
  exists e,
    report_migration (host := sample_host)
      (Success
         (JObj [("data",
                 JObj [("results",
                        JArr [JObj [("status", JStr "success")];
                              JStr "skipped"])])]))
      []
    = (inl e, []) /\ lookup_error e.
Proof.
  apply (reports_need_statuses (host := sample_host) ""
           (JObj [("data",
                   JObj [("results",
                          JArr [JObj [("status", JStr "success")];
                                JStr "skipped"])])])
           [JObj [("status", JStr "success")]; JStr "skipped"]
           []).
  - reflexivity.
  - apply Exists_cons_tl. apply Exists_cons_hd. reflexivity.
Defined.

(** Every connection refused: the demonstration returns after its seven
    requests. *)
Lemma demo_survives_outage_witness :
  fst (demo_scenarios (env := offline_env) (host := sample_host) []) = inr tt /\
  http_calls (snd (demo_scenarios (env := offline_env) (host := sample_host) []))
  = http_calls []
    ++ demo_health_calls (host := sample_host)
    ++ demo_deploy_calls (host := sample_host)
    ++ demo_migrate_calls (host := sample_host).
Proof.
  apply (demo_survives_outage (env := offline_env) (host := sample_host)).
  intros t' q. exists "Connection refused".
  apply (transport_failed (env := offline_env) _
           (mkExn "ConnectionError" "Connection refused")).
  reflexivity.
Defined.

(** The first instance answers its health check with an empty object: the
    demonstration raises after the three checks. *)
Lemma demo_stops_at_unexpected_health_body_witness :
  exists e,
    demo_scenarios (env := sample_env) (host := sample_host) []
    = (inl e,
       [] ++ EvPrint "=== Multi-Instance Health Check ==="
          :: bulk_events health_notice
               (table_request (demo_key (host := sample_host)) HealthCheck)
               customer_instances) /\
    lookup_error e.
Proof.
  apply (demo_stops_at_unexpected_health_body (env := sample_env)
           (host := sample_host) []
           (mkResponse 200 "OK"
              "https://acme-corp.msplatform.com/api/admin/health" "{}")
           (JObj [])).
  - reflexivity.
  - unfold status_4xx_5xx. simpl. lia.
  - reflexivity.
  - reflexivity.
Defined.
